(** * Architecture Agent: synthesis engine and diagram store

    A shallow embedding of [app/models.py] and of the endpoints of
    [app/main.py] that compute something ([generate_architecture_endpoint],
    [upload_architecture_endpoint], [save_architecture_endpoint],
    [get_architecture_endpoint]), with the properties of the specification
    and further properties of the code stated and proved over it.

    Modelling conventions

    - Python [str] is [string]; the model is exact on 7-bit text ([lower] and
      the whitespace test of [strip] leave characters above 127 alone).
    - [Dict[str, Any]] is a list of bindings in insertion order, [Any] is a
      JSON value whose numbers are integers or floats, the floats with
      their three non-finite values.
    - [uuid.uuid4()] is a stream [uuid4 : nat -> string]; the endpoint threads
      the number of draws made so far.
    - the directories of saved architectures and of uploads are one finite
      map from files to their contents. The save and get endpoints reach a
      file through the file system's resolution of a path, [file_of], so
      that two paths of one file are one key; what [open(path, "w")] and
      the write after it run into is an oracle. The upload endpoint is
      stated over the paths that it writes, with an oracle for [open].
    - the JSON text codec of pydantic ([model_dump_json] / the parsing half of
      [model_validate_json]) is a pair of functions between [json] and text;
      the shape validation against the models is spelled out from
      [app/models.py]. *)

From stdpp Require Import base option list strings gmap fin_maps pretty.
From Stdlib Require Import Ascii String ZArith NArith Lia.
From Stdlib Require DecimalString DecimalN DecimalPos.

Local Open Scope string_scope.
Local Open Scope list_scope.

(** * Definitions *)

(** ** Python string operations used by the endpoints *)

Module Py.

(** [str.lower()] on one character. *)
Definition lower_char (c : ascii) : ascii :=
  let n := N_of_ascii c in
  if ((65 <=? n) && (n <=? 90))%N then ascii_of_N (n + 32) else c.

(** [s.lower()] *)
Fixpoint lower (s : string) : string :=
  match s with
  | EmptyString => EmptyString
  | String c s' => String (lower_char c) (lower s')
  end.

(** [needle in hay] for two strings: some suffix of [hay] starts with
    [needle]. *)
Fixpoint str_in (needle hay : string) : bool :=
  if String.prefix needle hay then true
  else match hay with
       | EmptyString => false
       | String _ hay' => str_in needle hay'
       end.

(** [s[:n]] *)
Definition slice_to (n : nat) (s : string) : string := String.substring 0 n s.

(** [c.isspace()] *)
Definition isspace (c : ascii) : bool :=
  let n := N_of_ascii c in
  (((9 <=? n) && (n <=? 13)) || ((28 <=? n) && (n <=? 32)))%N.

(** [s.lstrip()] *)
Fixpoint lstrip (s : string) : string :=
  match s with
  | EmptyString => EmptyString
  | String c s' => if isspace c then lstrip s' else s
  end.

(** [s.rstrip()] *)
Fixpoint rstrip (s : string) : string :=
  match s with
  | EmptyString => EmptyString
  | String c s' =>
      match rstrip s' with
      | EmptyString => if isspace c then EmptyString else String c EmptyString
      | r => String c r
      end
  end.

(** [s.strip()] *)
Definition strip (s : string) : string := rstrip (lstrip s).

(** Truth value of a string, of a list and of an optional string (a
    variable that is [None] or a [str]). *)
Definition truthy_str (s : string) : bool :=
  match s with EmptyString => false | _ => true end.

Definition truthy_list {A} (l : list A) : bool :=
  match l with [] => false | _ => true end.

Definition truthy_opt (o : option string) : bool :=
  match o with None => false | Some s => truthy_str s end.

(** The string held by a variable that passed the truth test above. *)
Definition the_str (o : option string) : string :=
  match o with None => EmptyString | Some s => s end.

(** [os.path.join(a, b)] on POSIX for a directory name [a] that does not
    end in a slash: an absolute [b] discards [a]. *)
Definition os_path_join (a b : string) : string :=
  if String.prefix "/" b then b else a +:+ "/" +:+ b.

End Py.

(** ** Data model ([app/models.py]) *)

(** A Python [float]. A finite one is identified by the decimal numeral
    that [repr] writes for it, [m] times ten to the [e]; the other three
    are the values that a JSON body spells [Infinity], [-Infinity] and
    [NaN]. *)
Inductive pyfloat : Type :=
  | Finite (m e : Z)
  | PosInf
  | NegInf
  | NaN.

(** Values of type [Any] that reach the models from a JSON body. *)
#[local] Unset Elimination Schemes.
Inductive json : Type :=
  | JNull
  | JBool (b : bool)
  | JNum (n : Z)
  | JFloat (x : pyfloat)
  | JStr (s : string)
  | JArr (xs : list json)
  | JObj (kvs : list (string * json)).

#[local] Set Elimination Schemes.

(** [Dict[str, Any]] *)
Definition dict : Type := list (string * json).

Record TextPromptRequest := { prompt : string }.

Module ArchitectureComponent.
Record t := mk {
  id : string;
  name : string;
  type : string;
  technology : option string;
  description : option string;
  properties : option dict
}.
End ArchitectureComponent.

Module ArchitectureConnection.
Record t := mk {
  id : string;
  source_component_id : string;
  target_component_id : string;
  protocol : option string;
  description : option string;
  properties : option dict
}.
End ArchitectureConnection.

Module ArchitectureDiagram.
Record t := mk {
  diagram_id : string;
  name : string;
  description : option string;
  components : list ArchitectureComponent.t;
  connections : list ArchitectureConnection.t;
  metadata : option dict
}.
End ArchitectureDiagram.

Module Comp := ArchitectureComponent.
Module Conn := ArchitectureConnection.
Module Diag := ArchitectureDiagram.

(** ** Drawing identifiers *)

(** A computation that draws from the uuid stream: it receives the number of
    draws made so far and returns the new count. *)
Definition Gen (A : Type) : Type := nat -> A * nat.

Definition gret {A} (a : A) : Gen A := fun n => (a, n).

Definition gbind {A B} (m : Gen A) (k : A -> Gen B) : Gen B :=
  fun n => let (a, n') := m n in k a n'.

Declare Scope gen_scope.
Delimit Scope gen_scope with gen.
Notation "'let*' p ':=' m 'in' k" := (gbind m (fun p => k))
  (at level 10, p pattern, m at level 100, k at level 200) : gen_scope.

(** [for x in l: acc.append(body(x))] *)
Fixpoint for_append {A B} (l : list A) (body : A -> Gen B) (acc : list B)
  : Gen (list B) :=
  match l with
  | [] => gret acc
  | x :: l' => gbind (body x) (fun b => for_append l' body (acc ++ [b]))
  end.

(** ** The synthesis engine ([generate_architecture_endpoint]) *)

Section Engine.

(** [str(uuid.uuid4())] at the n-th call. *)
Variable uuid4 : nat -> string.

(** [f"{prefix}{uuid.uuid4()}"] *)
Definition fresh (prefix : string) : Gen string :=
  fun n => (prefix +:+ uuid4 n, S n).

Definition component (id name type technology description : string)
  : Comp.t :=
  Comp.mk id name type (Some technology) (Some description) None.

Definition connection (id src tgt protocol description : string)
  : Conn.t :=
  Conn.mk id src tgt (Some protocol) (Some description) None.

Definition database_component (db_id : string) : Comp.t :=
  component db_id "Primary Database" "Database"
    "e.g., PostgreSQL/MongoDB/DynamoDB"
    "Persistent storage for application data.".

Local Open Scope gen_scope.

Definition generate_architecture_endpoint (request : TextPromptRequest)
  : Gen Diag.t :=
  let* diagram_id := fresh "arch_" in
  let components : list Comp.t := [] in
  let connections : list Conn.t := [] in
  let prompt_lower := Py.lower (prompt request) in
  (* Client Components *)
  let client_components : list string := [] in
  let* (components, client_components) :=
    (if Py.str_in "android" prompt_lower then
       let* comp_id := fresh "comp_" in
       gret (components ++ [component comp_id "Android Client" "MobileClient"
                              "Android/Kotlin/Java"
                              "Native Android application interface."],
             client_components ++ [comp_id])
     else gret (components, client_components)) in
  let* (components, client_components) :=
    (if Py.str_in "ios" prompt_lower then
       let* comp_id := fresh "comp_" in
       gret (components ++ [component comp_id "iOS Client" "MobileClient"
                              "iOS/Swift"
                              "Native iOS application interface."],
             client_components ++ [comp_id])
     else gret (components, client_components)) in
  let* (components, client_components) :=
    (if Py.str_in "web" prompt_lower || Py.str_in "browser" prompt_lower then
       let* comp_id := fresh "comp_" in
       gret (components ++ [component comp_id "Web Client" "WebClient"
                              "React/Angular/Vue"
                              "Browser-based web application interface."],
             client_components ++ [comp_id])
     else gret (components, client_components)) in
  (* Backend Components *)
  let backend_services : list string := [] in
  let api_gateway_id : option string := None in
  let* (components, connections, backend_services, api_gateway_id) :=
    (if Py.str_in "api" prompt_lower || Py.str_in "backend" prompt_lower then
       let* api_gateway_id := fresh "comp_" in
       let components :=
         components ++ [component api_gateway_id "API Gateway" "APIGateway"
                          "e.g., Kong/NGINX/AWS API Gateway"
                          "Single entry point for all client requests."] in
       let* user_service_id := fresh "comp_" in
       let components :=
         components ++ [component user_service_id "User Service"
                          "Microservice" "e.g., Python/FastAPI"
                          "Manages user authentication, profiles, and settings."] in
       let backend_services := backend_services ++ [user_service_id] in
       let* conn_id := fresh "conn_" in
       let connections :=
         connections ++ [connection conn_id api_gateway_id user_service_id
                           "HTTPS/REST"
                           "Routes user-related requests to User Service."] in
       let* product_service_id := fresh "comp_" in
       let components :=
         components ++ [component product_service_id "Product Service"
                          "Microservice" "e.g., Node.js/Express"
                          "Manages product information or another specific domain."] in
       let backend_services := backend_services ++ [product_service_id] in
       let* conn_id := fresh "conn_" in
       let connections :=
         connections ++ [connection conn_id api_gateway_id product_service_id
                           "HTTPS/REST"
                           "Routes product-related requests to Product Service."] in
       gret (components, connections, backend_services, Some api_gateway_id)
     else gret (components, connections, backend_services, api_gateway_id)) in
  (* Connect Clients to API Gateway *)
  let* connections :=
    (if Py.truthy_opt api_gateway_id && Py.truthy_list client_components then
       for_append client_components
         (fun client_id =>
            let* conn_id := fresh "conn_" in
            gret (connection conn_id client_id (Py.the_str api_gateway_id)
                    "HTTPS"
                    "Client communication to backend via API Gateway."))
         connections
     else gret connections) in
  (* Database Component *)
  let* (components, connections) :=
    (if Py.str_in "database" prompt_lower || Py.str_in "storage" prompt_lower then
       let* db_id := fresh "comp_" in
       let components := components ++ [database_component db_id] in
       let* connections :=
         (if Py.truthy_list backend_services then
            for_append backend_services
              (fun service_id =>
                 let* conn_id := fresh "conn_" in
                 gret (connection conn_id service_id db_id
                         "TCP/IP (specific to DB)"
                         "Service connection to Database."))
              connections
          else gret connections) in
       gret (components, connections)
     else gret (components, connections)) in
  (* Fallback if no components were generated *)
  let* (components, connections) :=
    (if negb (Py.truthy_list components) then
       let* default_comp_id := fresh "comp_" in
       let components :=
         components ++ [component default_comp_id "Default Application Core"
                          "Monolith" "Generic"
                          "Basic application component generated due to lack of specific keywords."] in
       (* Still add DB if requested, even for the default component *)
       if Py.str_in "database" prompt_lower || Py.str_in "storage" prompt_lower then
         let* db_id := fresh "comp_" in
         let components := components ++ [database_component db_id] in
         let* conn_id := fresh "conn_" in
         gret (components,
               connections ++ [connection conn_id default_comp_id db_id
                                 "TCP/IP (specific to DB)"
                                 "Default core connection to Database."])
       else gret (components, connections)
     else gret (components, connections)) in
  gret (Diag.mk diagram_id
          ("Generated Architecture for: "
             +:+ Py.slice_to 50 (prompt request) +:+ "...")
          (Some "This architecture was automatically generated based on the provided prompt.")
          components connections
          (Some [("prompt", JStr (prompt request));
                 ("generator_version", JStr "0.1.0")])).

(** The engine as the specification names it: the diagram produced for a
    prompt when [n] identifiers have been drawn before. *)
Definition synthesize (p : string) (n : nat) : Diag.t :=
  fst (generate_architecture_endpoint {| prompt := p |} n).

End Engine.

(** ** Observations on a diagram *)

Definition component_ids (d : Diag.t) : list string :=
  map Comp.id (Diag.components d).

Definition connection_ids (d : Diag.t) : list string :=
  map Conn.id (Diag.connections d).

(** The directed edge a connection stands for. *)
Definition endpoints (c : Conn.t) : string * string :=
  (Conn.source_component_id c, Conn.target_component_id c).

Definition has_type (ty : string) (c : Comp.t) : bool :=
  String.eqb (Comp.type c) ty.

Definition is_client (c : Comp.t) : bool :=
  has_type "MobileClient" c || has_type "WebClient" c.

Definition has_protocol (p : string) (c : Conn.t) : bool :=
  match Conn.protocol c with
  | Some q => String.eqb q p
  | None => false
  end.

Definition leaves (src : string) (c : Conn.t) : bool :=
  String.eqb (Conn.source_component_id c) src.

(** Referential integrity of a diagram, as in the data model. *)
Record well_formed (d : Diag.t) : Prop := {
  wf_endpoints :
    Forall (fun c => Conn.source_component_id c ∈ component_ids d
                     /\ Conn.target_component_id c ∈ component_ids d)
           (Diag.connections d);
  wf_component_ids : NoDup (component_ids d);
  wf_connection_ids : NoDup (connection_ids d)
}.

Definition no_self_loop (d : Diag.t) : Prop :=
  Forall (fun c => Conn.source_component_id c <> Conn.target_component_id c)
         (Diag.connections d).

(** The uuid source never returns the same identifier twice. *)
Definition never_repeats (uuid4 : nat -> string) : Prop :=
  forall i j, uuid4 i = uuid4 j -> i = j.

(** ** JSON shape of the models

    [model_dump] lists the fields of a model in declaration order, [None] as
    [null]. [model_validate] is pydantic's validation of a parsed JSON value
    in its default (lax, extra fields ignored) mode: a field declared with
    [Field(...)] is required; [Optional] fields and the two lists have
    defaults; a [str] field takes a JSON string and nothing else. *)

(** [kvs.get(k)]; the bindings of a dictionary have distinct keys. *)
Fixpoint obj_get (k : string) (kvs : dict) : option json :=
  match kvs with
  | [] => None
  | (k', v) :: kvs' => if String.eqb k' k then Some v else obj_get k kvs'
  end.

Definition dump_optional_str (o : option string) : json :=
  match o with None => JNull | Some s => JStr s end.

Definition dump_optional_dict (o : option dict) : json :=
  match o with None => JNull | Some kvs => JObj kvs end.

Definition dump_component (c : Comp.t) : json :=
  JObj [("id", JStr (Comp.id c));
        ("name", JStr (Comp.name c));
        ("type", JStr (Comp.type c));
        ("technology", dump_optional_str (Comp.technology c));
        ("description", dump_optional_str (Comp.description c));
        ("properties", dump_optional_dict (Comp.properties c))].

Definition dump_connection (c : Conn.t) : json :=
  JObj [("id", JStr (Conn.id c));
        ("source_component_id", JStr (Conn.source_component_id c));
        ("target_component_id", JStr (Conn.target_component_id c));
        ("protocol", dump_optional_str (Conn.protocol c));
        ("description", dump_optional_str (Conn.description c));
        ("properties", dump_optional_dict (Conn.properties c))].

Definition model_dump (d : Diag.t) : json :=
  JObj [("diagram_id", JStr (Diag.diagram_id d));
        ("name", JStr (Diag.name d));
        ("description", dump_optional_str (Diag.description d));
        ("components", JArr (map dump_component (Diag.components d)));
        ("connections", JArr (map dump_connection (Diag.connections d)));
        ("metadata", dump_optional_dict (Diag.metadata d))].

(** [name: str = Field(...)] *)
Definition required_str (k : string) (kvs : dict) : option string :=
  match obj_get k kvs with
  | Some (JStr s) => Some s
  | _ => None
  end.

(** [name: Optional[str] = Field(None)] *)
Definition optional_str (k : string) (kvs : dict) : option (option string) :=
  match obj_get k kvs with
  | None | Some JNull => Some None
  | Some (JStr s) => Some (Some s)
  | Some _ => None
  end.

(** [name: Optional[Dict[str, Any]] = Field(None)] *)
Definition optional_dict (k : string) (kvs : dict) : option (option dict) :=
  match obj_get k kvs with
  | None | Some JNull => Some None
  | Some (JObj b) => Some (Some b)
  | Some _ => None
  end.

(** [name: List[M] = []] for a model [M] with validator [validate]. *)
Definition list_of {A} (validate : json -> option A) (k : string) (kvs : dict)
  : option (list A) :=
  match obj_get k kvs with
  | None => Some []
  | Some (JArr xs) => mapM validate xs
  | Some _ => None
  end.

Definition validate_component (j : json) : option Comp.t :=
  match j with
  | JObj kvs =>
      id ← required_str "id" kvs;
      name ← required_str "name" kvs;
      type ← required_str "type" kvs;
      technology ← optional_str "technology" kvs;
      description ← optional_str "description" kvs;
      properties ← optional_dict "properties" kvs;
      Some (Comp.mk id name type technology description properties)
  | _ => None
  end.

Definition validate_connection (j : json) : option Conn.t :=
  match j with
  | JObj kvs =>
      id ← required_str "id" kvs;
      source_component_id ← required_str "source_component_id" kvs;
      target_component_id ← required_str "target_component_id" kvs;
      protocol ← optional_str "protocol" kvs;
      description ← optional_str "description" kvs;
      properties ← optional_dict "properties" kvs;
      Some (Conn.mk id source_component_id target_component_id
              protocol description properties)
  | _ => None
  end.

(** [ArchitectureDiagram.model_validate]; [None] is a [ValidationError]. *)
Definition model_validate (j : json) : option Diag.t :=
  match j with
  | JObj kvs =>
      diagram_id ← required_str "diagram_id" kvs;
      name ← required_str "name" kvs;
      description ← optional_str "description" kvs;
      components ← list_of validate_component "components" kvs;
      connections ← list_of validate_connection "connections" kvs;
      metadata ← optional_dict "metadata" kvs;
      Some (Diag.mk diagram_id name description components connections
              metadata)
  | _ => None
  end.

(** ** What [model_dump_json] writes for a non-finite float

    JSON text has no spelling for a non-finite float, and pydantic writes
    [null] in its place ([ser_json_inf_nan] is ['null'] unless a model
    sets it). *)

(** The value that the JSON text of a value holds. *)
Fixpoint inf_nan_to_null (j : json) : json :=
  match j with
  | JFloat (Finite _ _) => j
  | JFloat _ => JNull
  | JArr xs => JArr (map inf_nan_to_null xs)
  | JObj kvs => JObj (map (fun kv => (fst kv, inf_nan_to_null (snd kv))) kvs)
  | _ => j
  end.

Definition dict_as_written (kvs : dict) : dict :=
  map (fun kv => (fst kv, inf_nan_to_null (snd kv))) kvs.

Definition bag_as_written (o : option dict) : option dict :=
  match o with
  | Some kvs => Some (dict_as_written kvs)
  | None => None
  end.

Definition component_as_written (c : Comp.t) : Comp.t :=
  Comp.mk (Comp.id c) (Comp.name c) (Comp.type c) (Comp.technology c)
    (Comp.description c) (bag_as_written (Comp.properties c)).

Definition connection_as_written (c : Conn.t) : Conn.t :=
  Conn.mk (Conn.id c) (Conn.source_component_id c)
    (Conn.target_component_id c) (Conn.protocol c) (Conn.description c)
    (bag_as_written (Conn.properties c)).

(** The diagram that the JSON text of a diagram holds: the diagram with
    every non-finite float of its property bags and of its metadata
    replaced by [None]. *)
Definition diagram_as_written (d : Diag.t) : Diag.t :=
  Diag.mk (Diag.diagram_id d) (Diag.name d) (Diag.description d)
    (map component_as_written (Diag.components d))
    (map connection_as_written (Diag.connections d))
    (bag_as_written (Diag.metadata d)).

(** No float of a value is infinite or NaN. *)
Fixpoint finite (j : json) : bool :=
  match j with
  | JFloat (Finite _ _) => true
  | JFloat _ => false
  | JArr xs => forallb finite xs
  | JObj kvs => forallb (fun kv => finite (snd kv)) kvs
  | _ => true
  end.

Definition finite_bag (o : option dict) : bool :=
  match o with
  | Some kvs => forallb (fun kv => finite (snd kv)) kvs
  | None => true
  end.

(** No property bag of the diagram and not its metadata hold a float that
    is infinite or NaN. *)
Definition finite_diagram (d : Diag.t) : bool :=
  forallb (fun c => finite_bag (Comp.properties c)) (Diag.components d)
  && forallb (fun c => finite_bag (Conn.properties c)) (Diag.connections d)
  && finite_bag (Diag.metadata d).

(** ** The diagram store ([save_architecture_endpoint],
       [get_architecture_endpoint]) *)

Definition SAVED_ARCHITECTURES_DIR : string := "saved_architectures".

Record HTTPException := {
  status_code : nat;
  detail : string
}.

Record ApiResponse := {
  message : string;
  data : option json;
  success : bool
}.

(** Exceptions that the handlers of the two endpoints tell apart. *)
Inductive exn : Type :=
  | Raised (e : HTTPException)
  | FileNotFoundError
  | JSONDecodeError
  | ValidationError
  | IOError
  | OtherException.

(** What [with open(path, "w") as f: f.write(text)] runs into. [open]
    raises and the file stays as it was; or [open] creates the file or
    empties it, and then the body raises, be it [model_dump_json] or the
    write, when [written] characters of the text have reached the file; or
    the whole text is written. *)
Inductive write_outcome : Type :=
  | OpenRaises (e : exn)
  | BodyRaises (e : exn) (written : nat)
  | Written.

(** An endpoint over the files of the file system: it answers or raises an
    [HTTPException], and leaves the files behind. A file is keyed by the
    name that the file system resolves its paths to, and holds a text. *)
Definition Store (A : Type) : Type :=
  gmap string string -> (HTTPException + A) * gmap string string.

(** The error kinds of the specification, as a caller of [get] reads them
    off the response status. *)
Inductive ErrorKind := NotFound | CorruptData.

Definition get_error_kind (e : HTTPException) : ErrorKind :=
  if Nat.eqb (status_code e) 404 then NotFound else CorruptData.

(** [os.path.join(SAVED_ARCHITECTURES_DIR, f"{id}.json")] *)
Definition saved_path (id : string) : string :=
  Py.os_path_join SAVED_ARCHITECTURES_DIR (id +:+ ".json").

Section DiagramStore.

(** The text that [model_dump_json(indent=2)] writes for a JSON value, and
    the JSON value that [model_validate_json] reads from a text ([None]
    when the text is not JSON). *)
Variable json_dumps : json -> string.
Variable json_loads : string -> option json.

(** The file that the file system resolves a path to: two paths name the
    same file exactly when they have the same [file_of]. *)
Variable file_of : string -> string.

(** What writing a text to a path runs into. *)
Variable write_file : string -> string -> write_outcome.

(** The [except] clauses of [save_architecture_endpoint], in order; the
    texts of the caught exceptions are left out of the details.
    [FileNotFoundError] is an [IOError]. *)
Definition save_handler (e : exn) : HTTPException :=
  match e with
  | FileNotFoundError | IOError =>
      {| status_code := 500;
         detail := "Could not save architecture file: " |}
  | _ =>
      {| status_code := 500;
         detail := "An unexpected error occurred while saving architecture: " |}
  end.

Definition save_architecture_endpoint (architecture_data : Diag.t)
  : Store ApiResponse := fun fs =>
  let filename := Diag.diagram_id architecture_data +:+ ".json" in
  let file_path := Py.os_path_join SAVED_ARCHITECTURES_DIR filename in
  let text := json_dumps (model_dump architecture_data) in
  match write_file file_path text with
  | Written =>
      (inr {| success := true;
              message := "Architecture '"
                           +:+ Diag.diagram_id architecture_data
                           +:+ "' saved successfully.";
              data := Some (JObj
                        [("diagram_id", JStr (Diag.diagram_id architecture_data));
                         ("saved_path", JStr file_path)]) |},
       <[file_of file_path := text]> fs)
  | BodyRaises e written =>
      (inl (save_handler e),
       <[file_of file_path := Py.slice_to written text]> fs)
  | OpenRaises e => (inl (save_handler e), fs)
  end.

(** The body of the [try] block of [get_architecture_endpoint], on the
    content read from the file. Invalid JSON text makes
    [model_validate_json] raise pydantic's [ValidationError]. *)
Definition read_architecture (architecture_id file_content : string)
  : exn + Diag.t :=
  if negb (Py.truthy_str (Py.strip file_content)) then
    inl (Raised {| status_code := 500;
                   detail := "Architecture file for ID '"
                               +:+ architecture_id +:+ "' is empty." |})
  else
    match json_loads file_content with
    | None => inl ValidationError
    | Some j =>
        match model_validate j with
        | None => inl ValidationError
        | Some architecture_model => inr architecture_model
        end
    end.

(** The [except] clauses of [get_architecture_endpoint], in order; the
    texts of the caught exceptions are left out of the details. *)
Definition get_handler (architecture_id : string) (e : exn) : HTTPException :=
  match e with
  | FileNotFoundError =>
      {| status_code := 404;
         detail := "Architecture file for ID '" +:+ architecture_id
                     +:+ "' not found (race condition)." |}
  | JSONDecodeError =>
      {| status_code := 500;
         detail := "Error parsing architecture file for ID '"
                     +:+ architecture_id
                     +:+ "'. File is not valid JSON." |}
  | ValidationError =>
      {| status_code := 500;
         detail := "Error validating architecture file for ID '"
                     +:+ architecture_id
                     +:+ "'. Invalid data structure: " |}
  | IOError =>
      {| status_code := 500;
         detail := "Could not read architecture file for ID '"
                     +:+ architecture_id +:+ "': " |}
  | Raised _ | OtherException =>
      {| status_code := 500;
         detail := "An unexpected error occurred when retrieving architecture for ID '"
                     +:+ architecture_id +:+ "': " |}
  end.

Definition get_architecture_endpoint (architecture_id : string)
  : Store Diag.t := fun fs =>
  let filename := architecture_id +:+ ".json" in
  let file_path := Py.os_path_join SAVED_ARCHITECTURES_DIR filename in
  match fs !! file_of file_path with
  | None =>
      (inl {| status_code := 404;
              detail := "Architecture with ID '" +:+ architecture_id
                          +:+ "' not found." |},
       fs)
  | Some file_content =>
      match read_architecture architecture_id file_content with
      | inr architecture_model => (inr architecture_model, fs)
      | inl e => (inl (get_handler architecture_id e), fs)
      end
  end.

(** The files after a sequence of save requests, whatever their
    outcomes. *)
Fixpoint save_all (ds : list Diag.t) (fs : gmap string string)
  : gmap string string :=
  match ds with
  | [] => fs
  | d :: ds' => save_all ds' (snd (save_architecture_endpoint d fs))
  end.

End DiagramStore.

(** [save(d).diagram_id]: the id that the receipt of a save reports. *)
Definition receipt_diagram_id (r : ApiResponse) : option string :=
  match data r with
  | Some (JObj kvs) => required_str "diagram_id" kvs
  | _ => None
  end.

(** Some connection of the diagram starts or ends at an id that no
    component of the diagram has. *)
Definition dangling (d : Diag.t) : Prop :=
  Exists (fun c => Conn.source_component_id c ∉ component_ids d
                   \/ Conn.target_component_id c ∉ component_ids d)
         (Diag.connections d).

(** ** A reference JSON codec

    A compact printer and a fuel-driven parser for [json], which meet the
    two requirements that the store puts on its text codec. An integer is
    written as its digits, a finite float with an exponent, a non-finite
    float as [null]. *)

Module RefCodec.

Definition quote : ascii := ascii_of_nat 34.
Definition backslash : ascii := ascii_of_nat 92.

(** *** Strings *)

Definition needs_escape (c : ascii) : bool :=
  Ascii.eqb c quote || Ascii.eqb c backslash.

Fixpoint escape (s : string) : string :=
  match s with
  | EmptyString => EmptyString
  | String c s' =>
      if needs_escape c then String backslash (String c (escape s'))
      else String c (escape s')
  end.

(** Reads the characters of a string literal after its opening quote, up
    to and including the closing quote. *)
Fixpoint read_string (s : string) : option (string * string) :=
  match s with
  | EmptyString => None
  | String c s' =>
      if Ascii.eqb c quote then Some (EmptyString, s')
      else if Ascii.eqb c backslash then
        match s' with
        | String c' s'' =>
            if needs_escape c' then
              match read_string s'' with
              | Some (r, rest) => Some (String c' r, rest)
              | None => None
              end
            else None
        | EmptyString => None
        end
      else
        match read_string s' with
        | Some (r, rest) => Some (String c r, rest)
        | None => None
        end
  end.

Definition print_string (s : string) : string :=
  String quote (escape s +:+ String quote EmptyString).

(** *** Numbers *)

Definition digit_of (c : ascii) : option (Decimal.uint -> Decimal.uint) :=
  match N_of_ascii c with
  | 48%N => Some Decimal.D0 | 49%N => Some Decimal.D1
  | 50%N => Some Decimal.D2 | 51%N => Some Decimal.D3
  | 52%N => Some Decimal.D4 | 53%N => Some Decimal.D5
  | 54%N => Some Decimal.D6 | 55%N => Some Decimal.D7
  | 56%N => Some Decimal.D8 | 57%N => Some Decimal.D9
  | _ => None
  end.

(** The longest prefix of digits, and what follows it. *)
Fixpoint read_digits (s : string) : Decimal.uint * string :=
  match s with
  | EmptyString => (Decimal.Nil, EmptyString)
  | String c s' =>
      match digit_of c with
      | Some dg => let (d, rest) := read_digits s' in (dg d, rest)
      | None => (Decimal.Nil, s)
      end
  end.

Definition print_N (n : N) : string :=
  DecimalString.NilEmpty.string_of_uint (N.to_uint n).

Definition print_Z (z : Z) : string :=
  match z with
  | Zneg p => String "-" (print_N (Npos p))
  | _ => print_N (Z.to_N z)
  end.

Definition read_N (s : string) : option (N * string) :=
  match read_digits s with
  | (Decimal.Nil, _) => None
  | (d, rest) => Some (N.of_uint d, rest)
  end.

Definition read_Z (s : string) : option (Z * string) :=
  match s with
  | String "-" s' =>
      match read_N s' with
      | Some (n, rest) => Some (Z.opp (Z.of_N n), rest)
      | None => None
      end
  | _ =>
      match read_N s with
      | Some (n, rest) => Some (Z.of_N n, rest)
      | None => None
      end
  end.

(** *** Values *)

Definition starts_with (c : ascii) (s : string) : bool :=
  match s with
  | String c' _ => Ascii.eqb c' c
  | EmptyString => false
  end.

Definition behead (s : string) : string :=
  match s with
  | String _ s' => s'
  | EmptyString => EmptyString
  end.

(** [skip word s] is what follows [word] at the start of [s]. *)
Fixpoint skip (word s : string) : option string :=
  match word, s with
  | EmptyString, _ => Some s
  | String a word', String b s' =>
      if Ascii.eqb a b then skip word' s' else None
  | String _ _, EmptyString => None
  end.

(** One or more values, each followed by a comma, the last by the
    closing bracket. *)
Definition print_elements (print : json -> string)
  : list json -> string :=
  fix elements (xs : list json) : string :=
    match xs with
    | [] => "]"
    | x :: xs' =>
        print x +:+
        match xs' with
        | [] => "]"
        | _ :: _ => String "," (elements xs')
        end
    end.

Definition print_members (print : json -> string)
  : list (string * json) -> string :=
  fix members (kvs : list (string * json)) : string :=
    match kvs with
    | [] => "}"
    | kv :: kvs' =>
        print_string (fst kv) +:+ String ":" (print (snd kv) +:+
        match kvs' with
        | [] => "}"
        | _ :: _ => String "," (members kvs')
        end)
    end.

Fixpoint print (j : json) : string :=
  match j with
  | JNull => "null"
  | JBool true => "true"
  | JBool false => "false"
  | JNum z => print_Z z
  | JFloat (Finite m e) => print_Z m +:+ String "e" (print_Z e)
  | JFloat _ => "null"
  | JStr s => print_string s
  | JArr xs => String "[" (print_elements print xs)
  | JObj kvs => String "{" (print_members print kvs)
  end.

Definition literal (word s : string) (j : json) : option (json * string) :=
  match skip word s with
  | Some rest => Some (j, rest)
  | None => None
  end.

(** A number: digits with a sign make an integer, an exponent after them
    makes a float. *)
Definition read_number (s : string) : option (json * string) :=
  match read_Z s with
  | Some (m, String "e" rest) =>
      match read_Z rest with
      | Some (e, rest') => Some (JFloat (Finite m e), rest')
      | None => None
      end
  | Some (z, rest) => Some (JNum z, rest)
  | None => None
  end.

Fixpoint parse (fuel : nat) (s : string) : option (json * string) :=
  match fuel with
  | 0 => None
  | S fuel =>
      match s with
      | EmptyString => None
      | String c s' =>
          if Ascii.eqb c "n" then literal "ull" s' JNull
          else if Ascii.eqb c "t" then literal "rue" s' (JBool true)
          else if Ascii.eqb c "f" then literal "alse" s' (JBool false)
          else if Ascii.eqb c quote then
            match read_string s' with
            | Some (str, rest) => Some (JStr str, rest)
            | None => None
            end
          else if Ascii.eqb c "[" then
            if starts_with "]" s' then Some (JArr [], behead s')
            else
              match parse_elements fuel s' with
              | Some (xs, rest) => Some (JArr xs, rest)
              | None => None
              end
          else if Ascii.eqb c "{" then
            if starts_with "}" s' then Some (JObj [], behead s')
            else
              match parse_members fuel s' with
              | Some (kvs, rest) => Some (JObj kvs, rest)
              | None => None
              end
          else read_number s
      end
  end
with parse_elements (fuel : nat) (s : string)
  : option (list json * string) :=
  match fuel with
  | 0 => None
  | S fuel =>
      match parse fuel s with
      | Some (x, String c rest) =>
          if Ascii.eqb c "," then
            match parse_elements fuel rest with
            | Some (xs, rest') => Some (x :: xs, rest')
            | None => None
            end
          else if Ascii.eqb c "]" then Some ([x], rest)
          else None
      | _ => None
      end
  end
with parse_members (fuel : nat) (s : string)
  : option (list (string * json) * string) :=
  match fuel with
  | 0 => None
  | S fuel =>
      if starts_with quote s then
        match read_string (behead s) with
        | Some (k, String c s') =>
            if Ascii.eqb c ":" then
              match parse fuel s' with
              | Some (v, String c' rest) =>
                  if Ascii.eqb c' "," then
                    match parse_members fuel rest with
                    | Some (kvs, rest') => Some ((k, v) :: kvs, rest')
                    | None => None
                    end
                  else if Ascii.eqb c' "}" then Some ([(k, v)], rest)
                  else None
              | _ => None
              end
            else None
        | _ => None
        end
      else None
  end.

Definition json_dumps (j : json) : string := print j.

(** A text is a document when one value spans all of it. *)
Definition json_loads (s : string) : option json :=
  match parse (S (String.length s)) s with
  | Some (j, EmptyString) => Some j
  | _ => None
  end.

(** The text that follows a run of digits does not go on with a digit. *)
Definition ends_digits (r : string) : Prop :=
  match r with
  | String c _ => digit_of c = None
  | EmptyString => True
  end.

(** The text that follows a number goes on neither with a digit nor with
    an exponent. *)
Definition ends_number (r : string) : Prop :=
  ends_digits r /\ starts_with "e" r = false.

(** The characters a number can start with. *)
Definition starts_number (c : ascii) : bool :=
  match digit_of c with
  | Some _ => true
  | None => Ascii.eqb c "-"
  end.

(** With fuel beyond the length of the printed text, [parse] reads the
    value that a printed text holds and stops right after it. *)
Definition reads_back (j : json) : Prop :=
  forall (fuel : nat) (r : string),
    String.length (print j) < fuel -> ends_number r ->
    parse fuel (print j +:+ r) = Some (inf_nan_to_null j, r).

End RefCodec.

(** ** Concrete inputs *)

(** A uuid source that counts: its n-th identifier is the decimal numeral
    of n. *)
Definition counter_uuid4 : nat -> string := pretty.

(** The diagram of [test_get_architecture_found]. *)
Definition test_get_diagram : Diag.t :=
  Diag.mk "get_test_arch" "Test Get Architecture" None
    [Comp.mk "c1" "Comp 1" "Service" None None None] [] None.

(** A diagram whose only connection leads to an id that no component has. *)
Definition dangling_diagram : Diag.t :=
  Diag.mk "dangling_arch" "Dangling" None
    [Comp.mk "c1" "Comp 1" "Service" None None None]
    [Conn.mk "k1" "c1" "ghost" None None None] None.

Definition always_writable (path : string) : bool := true.

(** A file system on which every write goes through. *)
Definition always_written (path text : string) : write_outcome := Written.

(** A file system that is full: a file can be created or emptied, and
    nothing can be written to it. *)
Definition disk_full (path text : string) : write_outcome :=
  BodyRaises IOError 0.

(** ** The trigger tests and what they decide *)

(** The five tests of [generate_architecture_endpoint] on a prompt. *)
Definition android_trigger (p : string) : bool :=
  Py.str_in "android" (Py.lower p).

Definition ios_trigger (p : string) : bool :=
  Py.str_in "ios" (Py.lower p).

Definition web_trigger (p : string) : bool :=
  Py.str_in "web" (Py.lower p) || Py.str_in "browser" (Py.lower p).

Definition backend_trigger (p : string) : bool :=
  Py.str_in "api" (Py.lower p) || Py.str_in "backend" (Py.lower p).

Definition database_trigger (p : string) : bool :=
  Py.str_in "database" (Py.lower p) || Py.str_in "storage" (Py.lower p).

(** Name and type of a component. *)
Definition kind (c : Comp.t) : string * string :=
  (Comp.name c, Comp.type c).

(** The client kinds that the tests of a prompt select, in order. *)
Definition client_kinds (p : string) : list (string * string) :=
  (if android_trigger p then [("Android Client", "MobileClient")] else [])
  ++ (if ios_trigger p then [("iOS Client", "MobileClient")] else [])
  ++ (if web_trigger p then [("Web Client", "WebClient")] else []).

(** The kinds of all tiers that the tests of a prompt select, in order. *)
Definition tier_kinds (p : string) : list (string * string) :=
  client_kinds p
  ++ (if backend_trigger p
      then [("API Gateway", "APIGateway"); ("User Service", "Microservice");
            ("Product Service", "Microservice")]
      else [])
  ++ (if database_trigger p then [("Primary Database", "Database")] else []).

(** The name of the component of a diagram that has a given id. *)
Definition component_named (d : Diag.t) (id : string) : option string :=
  match List.find (fun c => String.eqb (Comp.id c) id) (Diag.components d) with
  | Some c => Some (Comp.name c)
  | None => None
  end.

(** A connection as names: source, target and protocol. *)
Definition named_edge (d : Diag.t) (c : Conn.t)
  : option string * option string * option string :=
  (component_named d (Conn.source_component_id c),
   component_named d (Conn.target_component_id c),
   Conn.protocol c).

(** The edges that the tests of a prompt select, in order. *)
Definition tier_edges (p : string)
  : list (option string * option string * option string) :=
  if backend_trigger p then
    [(Some "API Gateway", Some "User Service", Some "HTTPS/REST");
     (Some "API Gateway", Some "Product Service", Some "HTTPS/REST")]
    ++ map (fun k => (Some (fst k), Some "API Gateway", Some "HTTPS"))
           (client_kinds p)
    ++ (if database_trigger p
        then [(Some "User Service", Some "Primary Database",
               Some "TCP/IP (specific to DB)");
              (Some "Product Service", Some "Primary Database",
               Some "TCP/IP (specific to DB)")]
        else [])
  else [].

(** A connection leads from a component of the list to one that comes
    later in the list. *)
Definition leads_forward (cs : list Comp.t) (k : Conn.t) : Prop :=
  exists (i j : nat) (src tgt : Comp.t),
    cs !! i = Some src /\ cs !! j = Some tgt
    /\ Comp.id src = Conn.source_component_id k
    /\ Comp.id tgt = Conn.target_component_id k
    /\ i < j.

(** ** Field names of the models *)

Definition diagram_fields : list string :=
  ["diagram_id"; "name"; "description"; "components"; "connections";
   "metadata"].

(** ** Sequences of save requests *)

(** The save of a diagram leaves a file alone: its path names another
    file, or its [open] raises. *)
Definition leaves_alone (json_dumps : json -> string)
    (file_of : string -> string)
    (write_file : string -> string -> write_outcome)
    (file : string) (d : Diag.t) : Prop :=
  file_of (saved_path (Diag.diagram_id d)) <> file
  \/ exists e : exn,
       write_file (saved_path (Diag.diagram_id d)) (json_dumps (model_dump d))
       = OpenRaises e.

(** The save of a diagram leaves the file of its path as it was or writes
    the whole text: its body does not raise after [open]. *)
Definition writes_all_or_nothing (json_dumps : json -> string)
    (write_file : string -> string -> write_outcome) (d : Diag.t) : Prop :=
  forall (e : exn) (written : nat),
    write_file (saved_path (Diag.diagram_id d)) (json_dumps (model_dump d))
    <> BodyRaises e written.

(** ** The upload endpoint ([upload_architecture_endpoint]) *)

(** Python operations on file names. *)
Module PyOs.

(** [s.rfind(c)] for a character [c]: the index of its last occurrence,
    [None] for -1. *)
Fixpoint rfind (c : ascii) (s : string) : option nat :=
  match s with
  | EmptyString => None
  | String x s' =>
      match rfind c s' with
      | Some i => Some (S i)
      | None => if Ascii.eqb x c then Some 0 else None
      end
  end.

(** [s[i:]] *)
Fixpoint slice_from (i : nat) (s : string) : string :=
  match i, s with
  | 0, _ => s
  | S i', String _ s' => slice_from i' s'
  | S _, EmptyString => EmptyString
  end.

(** The loop of [genericpath._splitext] that skips leading dots: whether
    one of the [steps] characters from [filenameIndex] on is not a dot. *)
Fixpoint finds_name (p : string) (filenameIndex steps : nat) : bool :=
  match steps with
  | 0 => false
  | S steps' =>
      if negb (String.eqb (Py.slice_to 1 (slice_from filenameIndex p)) ".")
      then true
      else finds_name p (S filenameIndex) steps'
  end.

(** [os.path.splitext(p)] on POSIX. *)
Definition splitext (p : string) : string * string :=
  let sepIndex := rfind "/" p in
  let dotIndex := rfind "." p in
  match dotIndex with
  | Some dot =>
      let filenameIndex := match sepIndex with Some sep => S sep | None => 0 end in
      if Nat.leb filenameIndex dot && finds_name p filenameIndex (dot - filenameIndex)
      then (Py.slice_to dot p, slice_from dot p)
      else (p, EmptyString)
  | None => (p, EmptyString)
  end.

(** [s.split(c)] for a character [c]. *)
Fixpoint split (c : ascii) (s : string) : list string :=
  match s with
  | EmptyString => [EmptyString]
  | String x s' =>
      match split c s' with
      | w :: ws => if Ascii.eqb x c then EmptyString :: w :: ws
                   else String x w :: ws
      | [] => []
      end
  end.

(** [sep.join(l)] *)
Fixpoint join (sep : string) (l : list string) : string :=
  match l with
  | [] => EmptyString
  | [w] => w
  | w :: l' => w +:+ sep +:+ join sep l'
  end.

End PyOs.

Definition UPLOADS_DIR : string := "uploaded_architectures".

(** An uploaded file: its name, if any, and the bytes of an open stream. *)
Record UploadFile := {
  filename : option string;
  file : string
}.

(** The extension that [upload_architecture_endpoint] gives the stored
    file. *)
Definition upload_extension (original_filename : string) : string :=
  let file_extension := snd (PyOs.splitext original_filename) in
  if Py.truthy_str file_extension && negb (String.prefix "." file_extension)
  then "." +:+ file_extension
  else if negb (Py.truthy_str file_extension)
          && Py.truthy_str original_filename
          && Py.str_in "." original_filename
  then
    let parts := PyOs.split "." original_filename in
    if Nat.ltb 1 (List.length parts)
    then "." +:+ PyOs.join "." (tail parts)
    else file_extension
  else file_extension.

Section Upload.

Variable uuid4 : nat -> string.
Variable can_open_w : string -> bool.

(** The endpoint over the file system and the count of uuid draws. With
    no file name [os.path.splitext] raises a [TypeError], caught by the
    last handler; the stream is closed on every path, which leaves no
    trace here. *)
Definition upload_architecture_endpoint (upload : UploadFile)
    (fs : gmap string string) (n : nat)
  : (HTTPException + ApiResponse) * gmap string string * nat :=
  match filename upload with
  | None =>
      (inl {| status_code := 500;
              detail := "An unexpected error occurred during file upload: " |},
       fs, n)
  | Some original_filename =>
      let file_extension := upload_extension original_filename in
      let unique_filename := uuid4 n +:+ file_extension in
      let file_path := Py.os_path_join UPLOADS_DIR unique_filename in
      if can_open_w file_path then
        (inr {| success := true;
                message := "File '" +:+ original_filename
                             +:+ "' uploaded successfully as '"
                             +:+ unique_filename +:+ "'.";
                data := Some (JObj
                          [("file_id", JStr unique_filename);
                           ("original_filename", JStr original_filename);
                           ("stored_path", JStr file_path)]) |},
         <[file_path := file upload]> fs, S n)
      else
        (inl {| status_code := 500;
                detail := "Could not save uploaded file: " |},
         fs, S n)
  end.

End Upload.

(** A uuid source without dots or slashes: its n-th identifier is n times
    the letter u. *)
Fixpoint tally_uuid4 (n : nat) : string :=
  match n with
  | 0 => EmptyString
  | S k => String "u" (tally_uuid4 k)
  end.

(** Whether a string consists of dots only. *)
Fixpoint all_dots (s : string) : bool :=
  match s with
  | EmptyString => true
  | String c s' => Ascii.eqb c "." && all_dots s'
  end.

(** The uuid source yields neither dots nor a leading slash, as the
    hexadecimal groups of a uuid do. *)
Definition plain_uuids (uuid4 : nat -> string) : Prop :=
  forall i, Py.str_in "." (uuid4 i) = false
            /\ String.prefix "/" (uuid4 i) = false.

(** The path that the receipt of an upload reports. *)
Definition receipt_stored_path (r : ApiResponse) : option string :=
  match data r with
  | Some (JObj kvs) => required_str "stored_path" kvs
  | _ => None
  end.

(** A second diagram under the id of [test_get_diagram]. *)
Definition test_get_diagram_v2 : Diag.t :=
  Diag.mk "get_test_arch" "Test Get Architecture, revised" None
    [Comp.mk "c1" "Comp 1" "Service" None None None;
     Comp.mk "c2" "Comp 2" "Service" None None None]
    [Conn.mk "k1" "c1" "c2" None None None] None.

(** A file system without links in which every directory of a path
    exists: a path names the file that its segments lead to, from the root
    when it starts with a slash and from the working directory otherwise.
    An empty segment and [.] stay in place, [..] steps back to the
    parent. *)
Definition walk (absolute : bool) (seen : list string) (segment : string)
  : list string :=
  if String.eqb segment "" || String.eqb segment "." then seen
  else if String.eqb segment ".." then
    match seen with
    | [] => if absolute then [] else [segment]
    | parent :: seen' =>
        if String.eqb parent ".." then segment :: seen else seen'
    end
  else segment :: seen.

Definition posix_file (path : string) : string :=
  let absolute := String.prefix "/" path in
  let segments := rev (fold_left (walk absolute) (PyOs.split "/" path) []) in
  (if absolute then "/" else "") +:+ PyOs.join "/" segments.

(** A diagram with property bags and metadata, all of them finite. *)
Definition rich_diagram : Diag.t :=
  Diag.mk "rich_arch" "Shop" (Some "A shop with a gateway")
    [Comp.mk "gw" "API Gateway" "APIGateway" (Some "Kong") None
       (Some [("replicas", JNum 2); ("weight", JFloat (Finite 15 (-1)));
              ("tags", JArr [JStr "edge"; JBool true; JNull])]);
     Comp.mk "db" "Primary Database" "Database" None (Some "orders") None]
    [Conn.mk "k1" "gw" "db" (Some "TCP/IP") None
       (Some [("pool", JObj [("min", JNum 1); ("max", JNum 8)])])]
    (Some [("prompt", JStr "a shop"); ("generator_version", JStr "0.1.0")]).

(** A diagram whose metadata hold an infinite float. *)
Definition infinity_diagram : Diag.t :=
  Diag.mk "inf_arch" "Unbounded" None
    [Comp.mk "c1" "Comp 1" "Service" None None None] []
    (Some [("budget", JFloat PosInf)]).

(** A diagram with a dangling connection that holds a NaN in its
    property bag. *)
Definition dangling_nan_diagram : Diag.t :=
  Diag.mk "dangling_nan_arch" "Dangling" None
    [Comp.mk "c1" "Comp 1" "Service" None None None]
    [Conn.mk "k1" "c1" "ghost" None None (Some [("latency", JFloat NaN)])]
    None.

(** A diagram whose id starts with a segment that stays in place. *)
Definition alias_diagram : Diag.t :=
  Diag.mk "./x" "Alias" None
    [Comp.mk "c1" "Comp 1" "Service" None None None] [] None.

(** The document of [test_save_architecture] with only its required
    fields. *)
Definition minimal_document : dict :=
  [("diagram_id", JStr "test_arch"); ("name", JStr "Test Save Architecture")].

(** The upload of [test_upload_architecture_diagram]. *)
Definition test_upload : UploadFile :=
  {| filename := Some "test_diagram.txt";
     file := "This is a dummy diagram file." |}.

(** * Theorems *)

(** ** Properties of the synthesis engine *)

(** Case analysis on the trigger tests of a run of the engine. *)
Ltac case_triggers :=
  repeat match goal with
    | H : Py.str_in ?k ?s = _ |- context [Py.str_in ?k ?s] => rewrite H
    | |- context [Py.str_in ?k ?s || Py.str_in ?k' ?s] =>
        destruct (Py.str_in k s || Py.str_in k' s) eqn:?
    | |- context [Py.str_in ?k ?s] => destruct (Py.str_in k s) eqn:?
    end.

Lemma truthy_prefixed (c : ascii) (pre s : string) :
  Py.truthy_str (String c pre +:+ s) = true.
Proof. reflexivity. Qed.

Ltac run_engine :=
  cbv [synthesize generate_architecture_endpoint]; cbn [prompt];
  case_triggers;
  cbn -[String.append];
  rewrite ?truthy_prefixed;
  cbn -[String.append].

Section EngineProperties.

Variable uuid4 : nat -> string.

Lemma fresh_ne (pre : string) (i j : nat) :
  never_repeats uuid4 -> i <> j -> pre +:+ uuid4 i <> pre +:+ uuid4 j.
Proof.
  intros Hf Hij E. apply Hij, Hf.
  induction pre as [|c pre IH]; simpl in E; [exact E|].
  injection E as E. auto.
Qed.

Ltac distinct_ids Hf :=
  repeat match goal with
    | |- NoDup [] => apply NoDup_nil_2
    | |- NoDup (_ :: _) => apply NoDup_cons_2
    | |- _ ∉ [] => apply not_elem_of_nil
    | |- _ ∉ _ :: _ => apply not_elem_of_cons; split
    | |- _ +:+ uuid4 _ <> _ +:+ uuid4 _ => apply (fresh_ne _ _ _ Hf); lia
    end.

Lemma eqb_fresh_ne (pre : string) (i j : nat) :
  never_repeats uuid4 -> i <> j -> String.eqb (pre +:+ uuid4 i) (pre +:+ uuid4 j) = false.
Proof.
  intros Hf Hij. apply String.eqb_neq. now apply fresh_ne.
Qed.

Ltac known_ids :=
  repeat match goal with
    | |- Forall _ [] => apply Forall_nil_2
    | |- Forall _ (_ :: _) => apply Forall_cons_2
    | |- _ /\ _ => split
    | |- _ ∈ _ => cbn -[String.append]; set_solver
    end.

Ltac no_loops Hf :=
  repeat match goal with
    | |- Forall _ [] => apply Forall_nil_2
    | |- Forall _ (_ :: _) => apply Forall_cons_2
    | |- Conn.source_component_id _ <> _ => cbn -[String.append]
    | |- _ +:+ uuid4 _ <> _ +:+ uuid4 _ => apply (fresh_ne _ _ _ Hf); lia
    end.

(** C2: on every prompt the engine returns a diagram (the embedding is a
    total function, so there is no error path) that has at least one
    component, whose connections all start and end at components of the
    diagram, none of them a self-loop, and in which no component id and no
    connection id occurs twice, provided the uuid source never repeats. *)
Theorem synthesize_well_formed (Hfresh : never_repeats uuid4) (p : string) (n : nat) :
  let d := synthesize uuid4 p n in
  Diag.components d <> [] /\ well_formed d /\ no_self_loop d.
Proof.
  run_engine.
  all: split; [discriminate|split; [constructor|unfold no_self_loop]].
  all: cbn -[String.append].
  all: first [ solve [distinct_ids Hfresh]
             | solve [known_ids]
             | solve [no_loops Hfresh] ].
Qed.

Ltac eval_trigger kw p b :=
  assert (Py.str_in kw (Py.lower p) = b) by (vm_compute; reflexivity).

Ltac eval_triggers p a i w br ap be db st :=
  eval_trigger "android" p a; eval_trigger "ios" p i;
  eval_trigger "web" p w; eval_trigger "browser" p br;
  eval_trigger "api" p ap; eval_trigger "backend" p be;
  eval_trigger "database" p db; eval_trigger "storage" p st.

(** C3: the prompt of the basic scenario yields the five components
    Android Client, API Gateway, User Service, Product Service and Primary
    Database, and exactly five connections: gateway to each service,
    Android client to gateway, each service to the database. *)
Theorem synthesize_android_backend_database (n : nat) :
  let d :=
    synthesize uuid4
      "Create a simple android app with a backend api and a database." n in
  exists a g u s db : Comp.t,
    Diag.components d = [a; g; u; s; db]
    /\ map Comp.name [a; g; u; s; db]
       = ["Android Client"; "API Gateway"; "User Service";
          "Product Service"; "Primary Database"]
    /\ map endpoints (Diag.connections d)
       = [(Comp.id g, Comp.id u); (Comp.id g, Comp.id s);
          (Comp.id a, Comp.id g);
          (Comp.id u, Comp.id db); (Comp.id s, Comp.id db)].
Proof.
  eval_triggers
    "Create a simple android app with a backend api and a database."
    true false false false true true true false.
  run_engine.
  do 5 eexists. repeat split; reflexivity.
Qed.

Ltac use_fresh Hf :=
  cbn -[String.append];
  repeat first
    [ rewrite String.eqb_refl
    | rewrite (eqb_fresh_ne _ _ _ Hf) by lia ];
  cbn -[String.append].

(** C4: when the lowercase prompt contains api or backend, the diagram
    has exactly one API Gateway component and exactly two microservices,
    User Service and Product Service; exactly two connections carry the
    protocol HTTPS/REST, from the gateway to each of the services, and
    they are the only connections that leave the gateway. *)
Theorem backend_tier_fires_once (Hfresh : never_repeats uuid4) (p : string) (n : nat) :
  Py.str_in "api" (Py.lower p) = true
  \/ Py.str_in "backend" (Py.lower p) = true ->
  let d := synthesize uuid4 p n in
  exists (g u s : Comp.t) (c1 c2 : Conn.t),
    List.filter (has_type "APIGateway") (Diag.components d) = [g]
    /\ Comp.name g = "API Gateway"
    /\ List.filter (has_type "Microservice") (Diag.components d) = [u; s]
    /\ Comp.name u = "User Service" /\ Comp.name s = "Product Service"
    /\ List.filter (has_protocol "HTTPS/REST") (Diag.connections d) = [c1; c2]
    /\ endpoints c1 = (Comp.id g, Comp.id u)
    /\ endpoints c2 = (Comp.id g, Comp.id s)
    /\ List.filter (leaves (Comp.id g)) (Diag.connections d) = [c1; c2].
Proof.
  intros Hb.
  assert (Py.str_in "api" (Py.lower p) || Py.str_in "backend" (Py.lower p) = true)
    as Hor by (apply orb_true_iff; exact Hb).
  cbv [synthesize generate_architecture_endpoint]; cbn [prompt].
  rewrite Hor. clear Hb Hor.
  case_triggers; cbn -[String.append]; rewrite ?truthy_prefixed;
    cbn -[String.append].
  all: do 5 eexists; repeat split; try reflexivity.
  all: use_fresh Hfresh; reflexivity.
Qed.

(** C5, as the code behaves: when only the database trigger matches, the
    database tier has already appended its component when the fallback
    tests for an empty component list, so the result is the lone database
    component, without the default component and without a connection. *)
Theorem database_only_skips_fallback (p : string) (n : nat) :
  Py.str_in "database" (Py.lower p) = true
  \/ Py.str_in "storage" (Py.lower p) = true ->
  Py.str_in "android" (Py.lower p) = false ->
  Py.str_in "ios" (Py.lower p) = false ->
  Py.str_in "web" (Py.lower p) = false ->
  Py.str_in "browser" (Py.lower p) = false ->
  Py.str_in "api" (Py.lower p) = false ->
  Py.str_in "backend" (Py.lower p) = false ->
  let d := synthesize uuid4 p n in
  exists db : Comp.t,
    Diag.components d = [db]
    /\ Comp.name db = "Primary Database"
    /\ Diag.connections d = [].
Proof.
  intros Hd Ha Hi Hw Hbr Hap Hbe.
  assert (Py.str_in "database" (Py.lower p) || Py.str_in "storage" (Py.lower p) = true)
    as Hor by (apply orb_true_iff; exact Hd).
  cbv [synthesize generate_architecture_endpoint]; cbn [prompt].
  rewrite Hor, Ha, Hi, Hw, Hbr, Hap, Hbe. cbn -[String.append].
  eexists. repeat split; reflexivity.
Qed.

(** X1: the branch of the fallback that would wire the default
    component to a database is never taken: a diagram that holds the
    default component has no connection at all. *)
Lemma fallback_never_wired (p : string) (n : nat) :
  let d := synthesize uuid4 p n in
  existsb (has_type "Monolith") (Diag.components d) = true ->
  Diag.connections d = [].
Proof.
  run_engine; intros Hm; first [reflexivity | discriminate Hm].
Qed.

(** C6: a prompt whose lowercase form contains none of the eight trigger
    keywords yields exactly one component, named Default Application Core,
    and no connection. *)
Theorem no_trigger_yields_default (p : string) (n : nat) :
  Py.str_in "android" (Py.lower p) = false ->
  Py.str_in "ios" (Py.lower p) = false ->
  Py.str_in "web" (Py.lower p) = false ->
  Py.str_in "browser" (Py.lower p) = false ->
  Py.str_in "api" (Py.lower p) = false ->
  Py.str_in "backend" (Py.lower p) = false ->
  Py.str_in "database" (Py.lower p) = false ->
  Py.str_in "storage" (Py.lower p) = false ->
  let d := synthesize uuid4 p n in
  exists c : Comp.t,
    Diag.components d = [c]
    /\ Comp.name c = "Default Application Core"
    /\ Diag.connections d = [].
Proof.
  intros Ha Hi Hw Hbr Hap Hbe Hdb Hst.
  run_engine. eexists. repeat split; reflexivity.
Qed.

(** C7: when the lowercase prompt contains android, ios and web, the
    client components are exactly three, Android Client, iOS Client and
    Web Client; when it also contains api, exactly three connections carry
    the protocol HTTPS, one from each client to the gateway. *)
Theorem three_independent_clients (p : string) (n : nat) :
  Py.str_in "android" (Py.lower p) = true ->
  Py.str_in "ios" (Py.lower p) = true ->
  Py.str_in "web" (Py.lower p) = true ->
  let d := synthesize uuid4 p n in
  exists a i w : Comp.t,
    List.filter is_client (Diag.components d) = [a; i; w]
    /\ map Comp.name [a; i; w] = ["Android Client"; "iOS Client"; "Web Client"]
    /\ (Py.str_in "api" (Py.lower p) = true ->
        exists g : Comp.t,
          List.filter (has_type "APIGateway") (Diag.components d) = [g]
          /\ map endpoints
               (List.filter (has_protocol "HTTPS") (Diag.connections d))
             = [(Comp.id a, Comp.id g); (Comp.id i, Comp.id g);
                (Comp.id w, Comp.id g)]).
Proof.
  intros Ha Hi Hw.
  cbv [synthesize generate_architecture_endpoint]; cbn [prompt].
  rewrite Ha, Hi, Hw. cbn [orb].
  destruct (Py.str_in "api" (Py.lower p)) eqn:Hap; cbn [orb].
  - case_triggers; cbn -[String.append]; rewrite ?truthy_prefixed;
      cbn -[String.append].
    all: do 3 eexists; repeat split; try reflexivity.
    all: intros _; eexists; split; reflexivity.
  - case_triggers; cbn -[String.append]; rewrite ?truthy_prefixed;
      cbn -[String.append].
    all: do 3 eexists; repeat split; try reflexivity.
    all: discriminate.
Qed.

End EngineProperties.

(** ** Properties of the JSON shape *)

Lemma validate_dump_component (c : Comp.t) :
  validate_component (dump_component c) = Some c.
Proof.
  destruct c as [i n t [te|] [de|] [pr|]]; reflexivity.
Qed.

Lemma validate_dump_connection (c : Conn.t) :
  validate_connection (dump_connection c) = Some c.
Proof.
  destruct c as [i s t [pr|] [de|] [pp|]]; reflexivity.
Qed.

Lemma mapM_validate_dump {A} (dump : A -> json) (validate : json -> option A)
    (l : list A) :
  (forall x, validate (dump x) = Some x) ->
  mapM validate (map dump l) = Some l.
Proof.
  intros Hx. induction l as [|x l IH]; [reflexivity|].
  cbn. rewrite Hx. cbn. rewrite IH. reflexivity.
Qed.

(** Validation accepts what [model_dump] produces and gives back the
    model, whatever the connections refer to. *)
Lemma model_validate_dump (d : Diag.t) :
  model_validate (model_dump d) = Some d.
Proof.
  destruct d as [i n de cs ks md].
  unfold model_validate, model_dump, list_of, required_str; cbn.
  rewrite (mapM_validate_dump _ _ cs validate_dump_component).
  rewrite (mapM_validate_dump _ _ ks validate_dump_connection).
  destruct de, md; reflexivity.
Qed.

(** A dictionary that lacks a required field is not a diagram. *)
Lemma model_validate_missing (k : string) (kvs : dict) :
  k ∈ ["diagram_id"; "name"] -> obj_get k kvs = None ->
  model_validate (JObj kvs) = None.
Proof.
  intros Hk Hget. unfold model_validate, required_str.
  apply elem_of_cons in Hk as [->|Hk].
  - rewrite Hget. reflexivity.
  - apply list_elem_of_singleton in Hk as ->. rewrite Hget.
    destruct (obj_get "diagram_id" kvs) as [[]|]; reflexivity.
Qed.

(** ** Properties of the written form *)

Lemma json_nested_ind (P : json -> Prop) :
  P JNull ->
  (forall b, P (JBool b)) ->
  (forall z, P (JNum z)) ->
  (forall x, P (JFloat x)) ->
  (forall s, P (JStr s)) ->
  (forall xs, Forall P xs -> P (JArr xs)) ->
  (forall kvs, Forall (fun kv => P (snd kv)) kvs -> P (JObj kvs)) ->
  forall j, P j.
Proof.
  intros Hnull Hbool Hnum Hfloat Hstr Harr Hobj.
  fix IH 1. intros [|b|z|x|s|xs|kvs].
  - exact Hnull.
  - apply Hbool.
  - apply Hnum.
  - apply Hfloat.
  - apply Hstr.
  - apply Harr. induction xs as [|x xs IHxs]; constructor; [apply IH|exact IHxs].
  - apply Hobj. induction kvs as [|kv kvs IHkvs]; constructor;
      [apply IH|exact IHkvs].
Qed.

(** The value that a text holds has no float that is infinite or NaN. *)
Lemma inf_nan_to_null_finite (j : json) : finite (inf_nan_to_null j) = true.
Proof.
  induction j as [| | |[]| |xs IH|kvs IH] using json_nested_ind;
    try reflexivity; cbn [inf_nan_to_null finite].
  - induction IH as [|x xs Hx _ IHxs]; [reflexivity|].
    cbn. now rewrite Hx, IHxs.
  - induction IH as [|kv kvs Hkv _ IHkvs]; [reflexivity|].
    cbn. now rewrite Hkv, IHkvs.
Qed.

(** A value without such a float is written as it is. *)
Lemma finite_inf_nan_to_null (j : json) :
  finite j = true -> inf_nan_to_null j = j.
Proof.
  induction j as [| | |[]| |xs IH|kvs IH] using json_nested_ind;
    try reflexivity; try discriminate; cbn [inf_nan_to_null finite];
    intros Hfin; f_equal.
  - induction IH as [|x xs Hx _ IHxs]; [reflexivity|].
    cbn in Hfin |- *. apply andb_true_iff in Hfin as [H1 H2].
    now rewrite Hx, IHxs.
  - induction IH as [|[k v] kvs Hkv _ IHkvs]; [reflexivity|].
    cbn in Hfin, Hkv |- *. apply andb_true_iff in Hfin as [H1 H2].
    now rewrite Hkv, IHkvs.
Qed.

Lemma bag_as_written_finite (o : option dict) :
  finite_bag (bag_as_written o) = true.
Proof.
  destruct o as [kvs|]; [|reflexivity].
  exact (inf_nan_to_null_finite (JObj kvs)).
Qed.

Lemma finite_bag_as_written (o : option dict) :
  finite_bag o = true -> bag_as_written o = o.
Proof.
  destruct o as [kvs|]; [|reflexivity]. intros Hfin.
  pose proof (finite_inf_nan_to_null (JObj kvs) Hfin) as E.
  cbn [bag_as_written]. f_equal. now injection E.
Qed.

Lemma diagram_as_written_finite (d : Diag.t) :
  finite_diagram (diagram_as_written d) = true.
Proof.
  destruct d as [i n de cs ks md]. unfold finite_diagram. cbn.
  rewrite bag_as_written_finite, andb_true_r. apply andb_true_iff. split.
  - induction cs as [|c cs IH]; [reflexivity|].
    cbn. now rewrite bag_as_written_finite, IH.
  - induction ks as [|k ks IH]; [reflexivity|].
    cbn. now rewrite bag_as_written_finite, IH.
Qed.

Lemma finite_diagram_as_written (d : Diag.t) :
  finite_diagram d = true -> diagram_as_written d = d.
Proof.
  destruct d as [i n de cs ks md]. unfold finite_diagram, diagram_as_written.
  cbn. intros [[Hcs Hks]%andb_true_iff Hmd]%andb_true_iff.
  rewrite (finite_bag_as_written md Hmd). f_equal.
  - induction cs as [|[ci cn ct cte cde cpr] cs IH]; [reflexivity|].
    cbn in Hcs |- *. apply andb_true_iff in Hcs as [Hc Hcs].
    rewrite (IH Hcs). unfold component_as_written. cbn.
    now rewrite (finite_bag_as_written cpr Hc).
  - induction ks as [|[ki ksrc ktg kpr kde kpp] ks IH]; [reflexivity|].
    cbn in Hks |- *. apply andb_true_iff in Hks as [Hk Hks].
    rewrite (IH Hks). unfold connection_as_written. cbn.
    now rewrite (finite_bag_as_written kpp Hk).
Qed.

(** A diagram is written as it is exactly when it holds no float that is
    infinite or NaN. *)
Lemma as_written_iff_finite (d : Diag.t) :
  diagram_as_written d = d <-> finite_diagram d = true.
Proof.
  split; [|apply finite_diagram_as_written].
  intros E. rewrite <- E. apply diagram_as_written_finite.
Qed.

Lemma dump_component_as_written (c : Comp.t) :
  inf_nan_to_null (dump_component c) = dump_component (component_as_written c).
Proof.
  destruct c as [i n t [te|] [de|] [pr|]]; reflexivity.
Qed.

Lemma dump_connection_as_written (c : Conn.t) :
  inf_nan_to_null (dump_connection c)
  = dump_connection (connection_as_written c).
Proof.
  destruct c as [i s t [pr|] [de|] [pp|]]; reflexivity.
Qed.

Lemma model_dump_as_written (d : Diag.t) :
  inf_nan_to_null (model_dump d) = model_dump (diagram_as_written d).
Proof.
  destruct d as [i n de cs ks md].
  unfold model_dump, diagram_as_written. cbn.
  rewrite !map_map.
  rewrite (map_ext _ _ dump_component_as_written cs).
  rewrite (map_ext _ _ dump_connection_as_written ks).
  destruct de, md; reflexivity.
Qed.

(** Validation accepts the value that the written text of a diagram
    holds, and gives the diagram as written. *)
Lemma model_validate_written (d : Diag.t) :
  model_validate (inf_nan_to_null (model_dump d)) = Some (diagram_as_written d).
Proof. rewrite model_dump_as_written. apply model_validate_dump. Qed.

(** ** Further properties of the JSON shape *)

(** X2: validating the value that the JSON text of a component, of a
    connection or of a diagram holds gives the model as written, with
    [None] for every non-finite float; that is the model itself exactly
    when it holds no such float, and two diagrams have the same JSON text
    value exactly when they are the same as written. *)
Theorem validate_inverts_dump :
  (forall c : Comp.t,
     validate_component (inf_nan_to_null (dump_component c))
     = Some (component_as_written c))
  /\ (forall k : Conn.t,
        validate_connection (inf_nan_to_null (dump_connection k))
        = Some (connection_as_written k))
  /\ (forall d : Diag.t,
        model_validate (inf_nan_to_null (model_dump d))
        = Some (diagram_as_written d))
  /\ (forall d : Diag.t, diagram_as_written d = d <-> finite_diagram d = true)
  /\ (forall d d' : Diag.t,
        inf_nan_to_null (model_dump d) = inf_nan_to_null (model_dump d')
        <-> diagram_as_written d = diagram_as_written d').
Proof.
  split; [intros c; rewrite dump_component_as_written;
          apply validate_dump_component|].
  split; [intros k; rewrite dump_connection_as_written;
          apply validate_dump_connection|].
  split; [exact model_validate_written|].
  split; [exact as_written_iff_finite|].
  intros d d'. split.
  - intros E. apply (f_equal model_validate) in E.
    rewrite !model_validate_written in E. congruence.
  - intros E. now rewrite !model_dump_as_written, E.
Qed.

Lemma obj_get_insert_ne (k k' : string) (v : json) (l1 l2 : dict) :
  k <> k' -> obj_get k (l1 ++ (k', v) :: l2) = obj_get k (l1 ++ l2).
Proof.
  intros Hne. induction l1 as [|[k1 v1] l1 IH]; cbn.
  - destruct (String.eqb_spec k' k) as [->|_]; [now contradiction Hne|].
    reflexivity.
  - now rewrite IH.
Qed.

(** X3: a field whose name is not a field of ArchitectureDiagram is
    ignored: a document validates to the same result with and without
    it, wherever it stands. *)
Theorem model_validate_ignores_unknown (k : string) (v : json)
    (l1 l2 : dict) :
  k ∉ diagram_fields ->
  model_validate (JObj (l1 ++ (k, v) :: l2)) = model_validate (JObj (l1 ++ l2)).
Proof.
  intros Hk. unfold diagram_fields in Hk.
  repeat (apply not_elem_of_cons in Hk as [? Hk]).
  unfold model_validate, required_str, optional_str, optional_dict, list_of.
  rewrite !obj_get_insert_ne by congruence. reflexivity.
Qed.

Lemma mapM_invalid {A} (validate : json -> option A) (xs : list json) :
  Exists (fun x => validate x = None) xs -> mapM validate xs = None.
Proof.
  induction 1 as [x xs Hx|x xs _ IH]; cbn.
  - now rewrite Hx.
  - destruct (validate x); cbn; [|reflexivity]. now rewrite IH.
Qed.

(** X4: one element of the components or of the connections array that
    is not a valid component or connection, for instance an object without
    its id, makes the whole document invalid. *)
Theorem model_validate_rejects_bad_element (kvs : dict) (xs : list json) :
  (obj_get "components" kvs = Some (JArr xs)
   /\ Exists (fun x => validate_component x = None) xs)
  \/ (obj_get "connections" kvs = Some (JArr xs)
      /\ Exists (fun x => validate_connection x = None) xs) ->
  model_validate (JObj kvs) = None.
Proof.
  unfold model_validate, list_of.
  intros [[Hget Hbad]|[Hget Hbad]]; rewrite Hget, (mapM_invalid _ _ Hbad);
    repeat match goal with
      | |- context [?o ≫= _] =>
          lazymatch o with
          | None => fail
          | _ => destruct o; cbn
          end
      end; reflexivity.
Qed.

(** X5: a document that has only the required fields diagram_id and
    name, as strings, validates to a diagram with no description, no
    components, no connections and no metadata. *)
Theorem model_validate_defaults (kvs : dict) (i n : string) :
  obj_get "diagram_id" kvs = Some (JStr i) ->
  obj_get "name" kvs = Some (JStr n) ->
  obj_get "description" kvs = None ->
  obj_get "components" kvs = None ->
  obj_get "connections" kvs = None ->
  obj_get "metadata" kvs = None ->
  model_validate (JObj kvs) = Some (Diag.mk i n None [] [] None).
Proof.
  intros Hi Hn Hd Hc Hk Hm.
  unfold model_validate, required_str, optional_str, optional_dict, list_of.
  now rewrite Hi, Hn, Hd, Hc, Hk, Hm.
Qed.

(** ** Properties of paths and of [strip] *)

Lemma append_cons (c : ascii) (a b : string) :
  String c a +:+ b = String c (a +:+ b).
Proof. reflexivity. Qed.

Lemma append_nil_l (b : string) : "" +:+ b = b.
Proof. reflexivity. Qed.

Lemma length_append (a b : string) :
  String.length (a +:+ b) = String.length a + String.length b.
Proof.
  induction a as [|c a IH]; [reflexivity|].
  rewrite append_cons. cbn. now rewrite IH.
Qed.

Lemma append_assoc (a b c : string) : (a +:+ b) +:+ c = a +:+ (b +:+ c).
Proof.
  induction a as [|x a IH]; [reflexivity|].
  rewrite !append_cons. now rewrite IH.
Qed.

Lemma append_inj_r (a b s : string) : a +:+ s = b +:+ s -> a = b.
Proof.
  intros E.
  assert (String.length a = String.length b) as Hlen.
  { apply (f_equal String.length) in E.
    rewrite !length_append in E. lia. }
  revert b E Hlen. induction a as [|c a IH]; intros [|c' b] E Hlen;
    try discriminate; [reflexivity|].
  cbn in E, Hlen. injection E as -> E. f_equal. apply IH; [exact E|lia].
Qed.

(** A text whose [strip()] is empty is empty or starts with white space. *)
Lemma strip_empty (s : string) :
  Py.strip s = "" ->
  s = "" \/ exists c s', s = String c s' /\ Py.isspace c = true.
Proof.
  destruct s as [|c s']; [now left|]. intros E. right. exists c, s'.
  split; [reflexivity|].
  destruct (Py.isspace c) eqn:Hc; [reflexivity|].
  unfold Py.strip in E. cbn [Py.lstrip] in E. rewrite Hc in E.
  cbn [Py.rstrip] in E. rewrite Hc in E.
  destruct (Py.rstrip s'); discriminate E.
Qed.

(** ** Further properties of the synthesis engine *)

Section EngineExtras.

Variable uuid4 : nat -> string.

Ltac unfold_triggers :=
  unfold tier_edges, tier_kinds, client_kinds, android_trigger, ios_trigger,
    web_trigger, backend_trigger, database_trigger.

(** X6: the names and types of the components are decided by the five
    trigger tests: the selected tiers in the order clients, backend,
    database, or the default component alone when no tier is selected. *)
Theorem component_kinds_by_triggers (p : string) (n : nat) :
  map kind (Diag.components (synthesize uuid4 p n))
  = match tier_kinds p with
    | [] => [("Default Application Core", "Monolith")]
    | _ :: _ => tier_kinds p
    end.
Proof.
  unfold_triggers. run_engine; reflexivity.
Qed.

Ltac eval_ids Hf :=
  cbn -[String.append];
  repeat (first [ rewrite String.eqb_refl
                | rewrite (eqb_fresh_ne uuid4 _ _ _ Hf) by lia ];
          cbn -[String.append]).

(** X7: when the uuid source never repeats, the connections, read as
    source name, target name and protocol, are decided by the trigger
    tests: none without the backend tier; with it, gateway to the two
    services, then each client to the gateway, then each service to the
    database when the database tier is selected. *)
Theorem edges_by_triggers (Hfresh : never_repeats uuid4) (p : string) (n : nat) :
  let d := synthesize uuid4 p n in
  map (named_edge d) (Diag.connections d) = tier_edges p.
Proof.
  unfold_triggers. run_engine; unfold named_edge, component_named;
    eval_ids Hfresh; reflexivity.
Qed.

(** X8: the diagram has no connection at all exactly when the lowercase
    prompt contains neither api nor backend. *)
Theorem connections_need_backend (p : string) (n : nat) :
  Diag.connections (synthesize uuid4 p n) = [] <-> backend_trigger p = false.
Proof.
  unfold_triggers. run_engine; split; intros H;
    first [reflexivity | discriminate H].
Qed.

(** X9: when the uuid source never repeats and the prompt selects the
    backend and the database tier, each of the two services is the source
    of exactly one connection with the database protocol, which ends at the
    database component. *)
Theorem services_reach_database (Hfresh : never_repeats uuid4)
    (p : string) (n : nat) :
  backend_trigger p = true -> database_trigger p = true ->
  let d := synthesize uuid4 p n in
  exists (u s db : Comp.t) (k1 k2 : Conn.t),
    List.filter (has_type "Microservice") (Diag.components d) = [u; s]
    /\ List.filter (has_type "Database") (Diag.components d) = [db]
    /\ List.filter (has_protocol "TCP/IP (specific to DB)") (Diag.connections d)
       = [k1; k2]
    /\ endpoints k1 = (Comp.id u, Comp.id db)
    /\ endpoints k2 = (Comp.id s, Comp.id db)
    /\ List.filter (leaves (Comp.id u)) (Diag.connections d) = [k1]
    /\ List.filter (leaves (Comp.id s)) (Diag.connections d) = [k2].
Proof.
  unfold backend_trigger, database_trigger. intros Hb Hd.
  cbv [synthesize generate_architecture_endpoint]; cbn [prompt].
  rewrite Hb, Hd. clear Hb Hd.
  case_triggers; cbn -[String.append]; rewrite ?truthy_prefixed;
    cbn -[String.append].
  all: do 5 eexists; repeat split; try reflexivity.
  all: unfold leaves; eval_ids Hfresh; reflexivity.
Qed.

(** X10: the endpoint draws one uuid for the diagram and one for each
    component and each connection it returns, and no other. *)
Theorem one_draw_per_id (p : string) (n : nat) :
  let r := generate_architecture_endpoint uuid4 {| prompt := p |} n in
  snd r = n + 1 + List.length (Diag.components (fst r))
          + List.length (Diag.connections (fst r)).
Proof.
  run_engine; lia.
Qed.

(** X11: a diagram has between one and seven components and at most seven
    connections. *)
Theorem diagram_size_bounds (p : string) (n : nat) :
  let d := synthesize uuid4 p n in
  1 <= List.length (Diag.components d) <= 7
  /\ List.length (Diag.connections d) <= 7.
Proof.
  run_engine; lia.
Qed.

Lemma prefix_append (a s : string) : String.prefix a (a +:+ s) = true.
Proof.
  induction a as [|c a IH]; [now destruct s|].
  rewrite append_cons. cbn [String.prefix].
  destruct (Ascii.ascii_dec c c) as [_|Hc]; [exact IH|now contradiction Hc].
Qed.

(** X12: whatever the uuid source returns, the diagram id starts with
    arch_, every component id with comp_ and every connection id with
    conn_, so that no connection shares its id with a component. *)
Theorem id_prefixes (p : string) (n : nat) :
  let d := synthesize uuid4 p n in
  String.prefix "arch_" (Diag.diagram_id d) = true
  /\ Forall (fun c => String.prefix "comp_" (Comp.id c) = true)
            (Diag.components d)
  /\ Forall (fun k => String.prefix "conn_" (Conn.id k) = true)
            (Diag.connections d)
  /\ (forall c k, c ∈ Diag.components d -> k ∈ Diag.connections d ->
                  Comp.id c <> Conn.id k).
Proof.
  intros d.
  assert (String.prefix "arch_" (Diag.diagram_id d) = true
          /\ Forall (fun c => String.prefix "comp_" (Comp.id c) = true)
                    (Diag.components d)
          /\ Forall (fun k => String.prefix "conn_" (Conn.id k) = true)
                    (Diag.connections d)) as (Ha & Hc & Hk).
  { subst d. run_engine.
    all: split; [apply prefix_append|split].
    all: repeat first [ apply Forall_nil_2
                      | apply Forall_cons_2; [apply prefix_append|] ]. }
  split; [exact Ha|]. split; [exact Hc|]. split; [exact Hk|].
  intros c k Hcin Hkin E.
  rewrite Forall_forall in Hc. rewrite Forall_forall in Hk.
  specialize (Hc c Hcin). specialize (Hk k Hkin). rewrite E in Hc.
  apply String.prefix_correct in Hc, Hk. cbn [String.length] in Hc, Hk.
  rewrite Hc in Hk. discriminate Hk.
Qed.

Ltac forward_pair i j :=
  exists i, j; do 2 eexists;
  split; [reflexivity|split; [reflexivity|split; [reflexivity|split;
    [reflexivity|lia]]]].

Ltac forward_to i j fuel :=
  lazymatch fuel with
  | O => fail
  | S ?f => first [ forward_pair i j | forward_to i (S j) f ]
  end.

Ltac forward_from i fuel :=
  lazymatch fuel with
  | O => fail
  | S ?f => first [ forward_to i (S i) 7 | forward_from (S i) f ]
  end.

(** X13: every connection leads from a component to one that comes later
    in the list of components, so the components are listed in an order in
    which no connection points backwards. *)
Theorem connections_lead_forward (p : string) (n : nat) :
  let d := synthesize uuid4 p n in
  Forall (leads_forward (Diag.components d)) (Diag.connections d).
Proof.
  run_engine.
  all: repeat first [ apply Forall_nil_2 | apply Forall_cons_2 ].
  all: unfold leads_forward; cbn -[String.append]; forward_from 0 7.
Qed.

Lemma lower_char_idempotent (c : ascii) :
  Py.lower_char (Py.lower_char c) = Py.lower_char c.
Proof. destruct c as [[] [] [] [] [] [] [] []]; reflexivity. Qed.

Lemma lower_idempotent (s : string) : Py.lower (Py.lower s) = Py.lower s.
Proof.
  induction s as [|c s IH]; [reflexivity|].
  cbn [Py.lower]. now rewrite lower_char_idempotent, IH.
Qed.

(** X14: the trigger tests see the prompt only in lowercase: two prompts
    with the same lowercase form, such as a prompt and its own lowercase
    form, give the same components and connections. *)
Theorem synthesize_ignores_case (p q : string) (n : nat) :
  Py.lower p = Py.lower q ->
  Diag.components (synthesize uuid4 p n) = Diag.components (synthesize uuid4 q n)
  /\ Diag.connections (synthesize uuid4 p n)
     = Diag.connections (synthesize uuid4 q n).
Proof.
  intros E. cbv [synthesize generate_architecture_endpoint]; cbn [prompt].
  rewrite E. case_triggers; cbn -[String.append]; rewrite ?truthy_prefixed;
    cbn -[String.append]; split; reflexivity.
Qed.




End EngineExtras.

(** ** Properties of the diagram store *)

Section StoreProperties.

Variable json_dumps : json -> string.
Variable json_loads : string -> option json.
Variable file_of : string -> string.
Variable write_file : string -> string -> write_outcome.

Local Abbreviation save :=
  (save_architecture_endpoint json_dumps file_of write_file).
Local Abbreviation get := (get_architecture_endpoint json_loads file_of).
Local Abbreviation saves := (save_all json_dumps file_of write_file).

(** The file and the text of the save of a diagram. *)
Local Abbreviation file_for d := (file_of (saved_path (Diag.diagram_id d))).
Local Abbreviation text_for d := (json_dumps (model_dump d)).
Local Abbreviation outcome_for d :=
  (write_file (saved_path (Diag.diagram_id d)) (json_dumps (model_dump d))).
Local Abbreviation leaves_alone := (leaves_alone json_dumps file_of write_file).

(** What the endpoints rely on from the JSON text codec: reading a written
    document gives the value back, with [null] where the value has a
    non-finite float, and a blank text is not a document. *)
Hypothesis codec_round_trip :
  forall j : json, json_loads (json_dumps j) = Some (inf_nan_to_null j).
Hypothesis codec_rejects_blank :
  forall s : string, Py.strip s = "" -> json_loads s = None.

Lemma read_architecture_dumped (id : string) (d : Diag.t) :
  read_architecture json_loads id (text_for d) = inr (diagram_as_written d).
Proof.
  unfold read_architecture.
  destruct (Py.strip (text_for d)) as [|c s] eqn:Hs.
  - apply codec_rejects_blank in Hs. rewrite codec_round_trip in Hs.
    discriminate Hs.
  - cbn. now rewrite codec_round_trip, model_validate_written.
Qed.

Lemma save_ok_inv (d : Diag.t) (fs fs' : gmap string string) (r : ApiResponse) :
  save d fs = (inr r, fs') ->
  receipt_diagram_id r = Some (Diag.diagram_id d)
  /\ outcome_for d = Written
  /\ fs' = <[file_for d := text_for d]> fs.
Proof.
  unfold save_architecture_endpoint. fold (saved_path (Diag.diagram_id d)).
  destruct (write_file _ _); intros E; try discriminate E.
  injection E as <- <-. repeat split; reflexivity.
Qed.

Lemma save_written (d : Diag.t) (fs : gmap string string) :
  outcome_for d = Written ->
  exists r : ApiResponse,
    save d fs = (inr r, <[file_for d := text_for d]> fs) /\ success r = true.
Proof.
  intros Hw. unfold save_architecture_endpoint.
  fold (saved_path (Diag.diagram_id d)). rewrite Hw.
  eexists. split; reflexivity.
Qed.

(** A document that is the text of a diagram reads as the diagram as
    written. *)
Lemma get_document (id : string) (d : Diag.t) (fs : gmap string string) :
  fs !! file_of (saved_path id) = Some (text_for d) ->
  get id fs = (inr (diagram_as_written d), fs).
Proof.
  intros Hdoc. unfold get_architecture_endpoint. fold (saved_path id).
  now rewrite Hdoc, read_architecture_dumped.
Qed.

Lemma get_exact_iff (id : string) (d : Diag.t) (fs : gmap string string) :
  get id fs = (inr (diagram_as_written d), fs) ->
  get id fs = (inr d, fs) <-> finite_diagram d = true.
Proof.
  intros ->. rewrite <- as_written_iff_finite. split.
  - now intros [= ->].
  - now intros ->.
Qed.

(** C1, amended: when a save of [d] is accepted, a get with the diagram id
    of its receipt, which is the id of [d], returns [d] as written: same
    id, name, description, components and connections in order, and in the
    property bags and the metadata [None] for every float that is infinite
    or NaN. It returns exactly [d] when, and only when, [d] holds no such
    float. *)
Theorem save_then_get (d : Diag.t) (fs fs' : gmap string string)
    (r : ApiResponse) :
  save d fs = (inr r, fs') ->
  exists id : string,
    receipt_diagram_id r = Some id
    /\ id = Diag.diagram_id d
    /\ get id fs' = (inr (diagram_as_written d), fs')
    /\ (get id fs' = (inr d, fs') <-> finite_diagram d = true).
Proof.
  intros (Hr & _ & ->)%save_ok_inv.
  exists (Diag.diagram_id d). split; [exact Hr|]. split; [reflexivity|].
  assert (get (Diag.diagram_id d) (<[file_for d := text_for d]> fs)
          = (inr (diagram_as_written d), <[file_for d := text_for d]> fs))
    as Hget by (apply get_document, lookup_insert_eq).
  split; [exact Hget|]. now apply get_exact_iff.
Qed.

Lemma save_other_file (d : Diag.t) (fs : gmap string string) (file : string) :
  file <> file_for d -> snd (save d fs) !! file = fs !! file.
Proof.
  intros Hne. unfold save_architecture_endpoint.
  fold (saved_path (Diag.diagram_id d)).
  destruct (write_file _ _); cbn [snd]; try reflexivity;
    now rewrite lookup_insert_ne.
Qed.

Lemma save_open_raises (d : Diag.t) (fs : gmap string string) (e : exn) :
  outcome_for d = OpenRaises e -> save d fs = (inl (save_handler e), fs).
Proof.
  intros Hw. unfold save_architecture_endpoint.
  fold (saved_path (Diag.diagram_id d)). now rewrite Hw.
Qed.

Lemma save_leaves_alone (d : Diag.t) (fs : gmap string string) (file : string) :
  leaves_alone file d -> snd (save d fs) !! file = fs !! file.
Proof.
  intros [Hne|[e He]].
  - apply save_other_file. congruence.
  - now rewrite (save_open_raises d fs e He).
Qed.

Lemma save_all_leave_alone (ds : list Diag.t) (fs : gmap string string)
    (file : string) :
  Forall (leaves_alone file) ds -> saves ds fs !! file = fs !! file.
Proof.
  revert fs. induction ds as [|d ds IH]; intros fs Hds; [reflexivity|].
  apply Forall_cons in Hds as [Hd Hds].
  cbn [save_all]. rewrite IH by exact Hds. now apply save_leaves_alone.
Qed.

Lemma save_all_app (ds1 ds2 : list Diag.t) (fs : gmap string string) :
  saves (ds1 ++ ds2) fs = saves ds2 (saves ds1 fs).
Proof.
  revert fs. induction ds1 as [|d ds1 IH]; intros fs; [reflexivity|].
  cbn [app save_all]. apply IH.
Qed.

Lemma get_missing (id : string) (fs : gmap string string) :
  fs !! file_of (saved_path id) = None ->
  exists e : HTTPException,
    get id fs = (inl e, fs) /\ status_code e = 404.
Proof.
  intros Hnone. unfold get_architecture_endpoint. fold (saved_path id).
  rewrite Hnone. eexists. split; reflexivity.
Qed.

(** C8, amended: when no file exists under the path of an id and no
    diagram is saved afterwards whose path names that same file, be it
    under another id, get fails with status 404, the NotFound kind and not
    CorruptData, and leaves the files as they are. *)
Theorem get_never_saved (id : string) (ds : list Diag.t)
    (fs : gmap string string) :
  fs !! file_of (saved_path id) = None ->
  Forall (fun d => file_for d <> file_of (saved_path id)) ds ->
  let fs' := saves ds fs in
  exists e : HTTPException,
    get id fs' = (inl e, fs')
    /\ status_code e = 404
    /\ get_error_kind e = NotFound
    /\ get_error_kind e <> CorruptData.
Proof.
  intros Hnone Hds fs'.
  destruct (get_missing id fs') as (e & Hget & Hcode).
  { unfold fs'. rewrite save_all_leave_alone; [exact Hnone|].
    eapply Forall_impl; [exact Hds|]. intros d Hd. now left. }
  exists e. split; [exact Hget|]. split; [exact Hcode|].
  unfold get_error_kind. rewrite Hcode. split; [reflexivity|discriminate].
Qed.

Lemma get_handler_500 (id : string) (x : exn) :
  x <> FileNotFoundError -> status_code (get_handler id x) = 500.
Proof. destruct x; intros Hx; try reflexivity. now contradiction Hx. Qed.

(** C9: when a document exists under the key of an id but its text is
    blank, is not JSON, does not validate as an ArchitectureDiagram, or in
    particular lacks the required field diagram_id or name, get fails with
    status 500, the CorruptData kind, which differs from the NotFound kind
    of a missing document. *)
Theorem get_unreadable (id content : string) (fs : gmap string string) :
  fs !! file_of (saved_path id) = Some content ->
  Py.strip content = ""
  \/ json_loads content = None
  \/ (exists j, json_loads content = Some j /\ model_validate j = None)
  \/ (exists kvs k, json_loads content = Some (JObj kvs)
                    /\ k ∈ ["diagram_id"; "name"]
                    /\ obj_get k kvs = None) ->
  exists e : HTTPException,
    get id fs = (inl e, fs)
    /\ status_code e = 500
    /\ get_error_kind e = CorruptData
    /\ get_error_kind e <> NotFound.
Proof.
  intros Hsome Hbad.
  assert (exists x, read_architecture json_loads id content = inl x
                    /\ x <> FileNotFoundError) as (x & Hread & Hx).
  { unfold read_architecture.
    destruct Hbad as [Hs|[Hl|[(j & Hl & Hv)|(kvs & k & Hl & Hk & Hg)]]].
    - rewrite Hs. cbn. eexists. split; [reflexivity|discriminate].
    - destruct (negb _); rewrite ?Hl; eexists; split;
        first [reflexivity|discriminate].
    - destruct (negb _); rewrite ?Hl, ?Hv; eexists; split;
        first [reflexivity|discriminate].
    - destruct (negb _);
        rewrite ?Hl, ?(model_validate_missing k kvs Hk Hg); eexists; split;
        first [reflexivity|discriminate]. }
  exists (get_handler id x).
  unfold get_architecture_endpoint. fold (saved_path id).
  rewrite Hsome, Hread. split; [reflexivity|].
  pose proof (get_handler_500 id x Hx) as Hcode.
  split; [exact Hcode|]. unfold get_error_kind. rewrite Hcode.
  split; [reflexivity|discriminate].
Qed.

Lemma component_ids_as_written (d : Diag.t) :
  component_ids (diagram_as_written d) = component_ids d.
Proof.
  unfold component_ids, diagram_as_written. cbn.
  rewrite map_map. reflexivity.
Qed.

Lemma endpoints_as_written (d : Diag.t) :
  map endpoints (Diag.connections (diagram_as_written d))
  = map endpoints (Diag.connections d).
Proof.
  unfold diagram_as_written. cbn. rewrite map_map. reflexivity.
Qed.

Lemma dangling_as_written (d : Diag.t) :
  dangling d -> dangling (diagram_as_written d).
Proof.
  unfold dangling. rewrite component_ids_as_written.
  unfold diagram_as_written. cbn [Diag.connections].
  induction 1 as [c cs Hc|c cs _ IH]; cbn [map].
  - apply Exists_cons_hd. exact Hc.
  - apply Exists_cons_tl. exact IH.
Qed.

(** C10, amended: a diagram with a connection whose source or target is
    not the id of any of its components is saved like any other, whenever
    its file can be opened and written; a get with its id then succeeds
    and returns the diagram as written, with the same component ids and
    the same connection endpoints, dangling as they were, and with [None]
    for every float of a property bag that is infinite or NaN. It is the
    diagram itself when it holds no such float. *)
Theorem dangling_endpoints_accepted (d : Diag.t) (fs : gmap string string) :
  dangling d ->
  outcome_for d = Written ->
  exists (r : ApiResponse) (fs' : gmap string string) (d' : Diag.t),
    save d fs = (inr r, fs')
    /\ success r = true
    /\ get (Diag.diagram_id d) fs' = (inr d', fs')
    /\ d' = diagram_as_written d
    /\ component_ids d' = component_ids d
    /\ map endpoints (Diag.connections d') = map endpoints (Diag.connections d)
    /\ dangling d'
    /\ (finite_diagram d = true -> d' = d).
Proof.
  intros Hdangling Hw.
  destruct (save_written d fs Hw) as (r & Hsave & Hok).
  exists r, (<[file_for d := text_for d]> fs), (diagram_as_written d).
  split; [exact Hsave|]. split; [exact Hok|].
  split; [apply get_document, lookup_insert_eq|].
  split; [reflexivity|].
  split; [apply component_ids_as_written|].
  split; [apply endpoints_as_written|].
  split; [now apply dangling_as_written|].
  apply finite_diagram_as_written.
Qed.

(** *** Further properties of the store *)

Lemma get_keeps_files (id : string) (fs : gmap string string) :
  snd (get id fs) = fs.
Proof.
  unfold get_architecture_endpoint.
  destruct (fs !! _) as [content|]; [|reflexivity].
  destruct (read_architecture json_loads id content); reflexivity.
Qed.

(** X16: after any sequence of save requests, get answers with the
    diagram, as written, of the last save that wrote the file that the
    path of the id names, under this id or under another id whose path
    names the same file, when that save wrote its whole text: the saves
    before it do not matter, nor do later saves that name other files or
    whose open raises. *)
Theorem get_after_saves (id : string) (ds1 ds2 : list Diag.t) (d : Diag.t)
    (fs : gmap string string) :
  file_for d = file_of (saved_path id) ->
  outcome_for d = Written ->
  Forall (leaves_alone (file_of (saved_path id))) ds2 ->
  let fs' := saves (ds1 ++ d :: ds2) fs in
  get id fs' = (inr (diagram_as_written d), fs').
Proof.
  intros Hfile Hw Hds2 fs'. apply get_document. unfold fs'.
  rewrite save_all_app. cbn [save_all].
  rewrite save_all_leave_alone by exact Hds2.
  destruct (save_written d (saves ds1 fs) Hw) as (r & -> & _).
  cbn [snd]. rewrite Hfile. apply lookup_insert_eq.
Qed.

(** What a file holds after saves that write all or nothing: what it
    held before, or the text of one of the diagrams. *)
Lemma save_all_content (ds : list Diag.t) (fs : gmap string string)
    (file content : string) :
  Forall (writes_all_or_nothing json_dumps write_file) ds ->
  saves ds fs !! file = Some content ->
  fs !! file = Some content
  \/ exists d, d ∈ ds /\ file_for d = file /\ content = text_for d.
Proof.
  revert fs. induction ds as [|d ds IH]; intros fs Hds Hc; [now left|].
  apply Forall_cons in Hds as [Hd Hds]. cbn [save_all] in Hc.
  destruct (IH _ Hds Hc) as [Hfs|(d' & Hin & Hf & Ht)].
  - unfold save_architecture_endpoint in Hfs.
    fold (saved_path (Diag.diagram_id d)) in Hfs.
    destruct (outcome_for d) as [e|e written|] eqn:Hw; cbn [snd] in Hfs.
    + now left.
    + now contradiction (Hd e written).
    + destruct (decide (file_for d = file)) as [E|Hne].
      * rewrite E, lookup_insert_eq in Hfs. injection Hfs as <-.
        right. exists d. split; [now left|]. split; [exact E|reflexivity].
      * rewrite lookup_insert_ne in Hfs by exact Hne. now left.
  - right. exists d'. split; [now right|]. split; assumption.
Qed.

(** X17: among files that only save requests have written to, each of
    them in full or not at all, a get that succeeds returns one of the
    saved diagrams as written; the path of its diagram_id names the same
    file as the path of the id that was asked for, and need not be the
    same id. *)
Theorem get_returns_saved_diagram (id : string) (ds : list Diag.t)
    (m : Diag.t) :
  Forall (writes_all_or_nothing json_dumps write_file) ds ->
  fst (get id (saves ds ∅)) = inr m ->
  exists d : Diag.t,
    d ∈ ds
    /\ m = diagram_as_written d
    /\ file_of (saved_path (Diag.diagram_id m)) = file_of (saved_path id).
Proof.
  intros Hds Hget.
  destruct (saves ds ∅ !! file_of (saved_path id)) as [content|] eqn:Hc.
  - destruct (save_all_content ds ∅ _ _ Hds Hc) as [He|(d & Hin & Hf & ->)].
    { rewrite lookup_empty in He. discriminate He. }
    rewrite (get_document id d _ Hc) in Hget. injection Hget as <-.
    exists d. split; [exact Hin|]. split; [reflexivity|exact Hf].
  - destruct (get_missing id _ Hc) as (e & E & _).
    rewrite E in Hget. discriminate Hget.
Qed.

(** X18: get does not compare the diagram_id of the stored document with
    the id it was asked for: a valid document under the key of one id is
    returned as written, whatever diagram_id it carries, and so as the
    diagram itself when that holds no float that is infinite or NaN. *)
Theorem get_trusts_document (id : string) (d : Diag.t)
    (fs : gmap string string) :
  fs !! file_of (saved_path id) = Some (text_for d) ->
  get id fs = (inr (diagram_as_written d), fs)
  /\ (finite_diagram d = true -> get id fs = (inr d, fs)).
Proof.
  intros Hdoc. pose proof (get_document id d fs Hdoc) as Hget.
  split; [exact Hget|]. now apply get_exact_iff.
Qed.

(** X19: a second save of the same diagram answers as the first and
    leaves the directory as the first left it. *)
Theorem save_idempotent (d : Diag.t) (fs : gmap string string) :
  save d (snd (save d fs)) = save d fs.
Proof.
  unfold save_architecture_endpoint.
  destruct (write_file _ _); cbn [snd]; try reflexivity;
    now rewrite insert_insert_eq.
Qed.

(** X20: a save changes at most the file that the path of its diagram_id
    names and removes no file, and it always answers with status 500 when
    it fails. When open raises it changes nothing; when its body raises
    after open, the file holds the part of the text that was written, and
    nothing at all when nothing was; otherwise the file holds the whole
    text. *)
Theorem save_frame (d : Diag.t) (fs : gmap string string) :
  let fs' := snd (save d fs) in
  (forall file, file <> file_for d -> fs' !! file = fs !! file)
  /\ (forall file, is_Some (fs !! file) -> is_Some (fs' !! file))
  /\ (forall h, fst (save d fs) = inl h -> status_code h = 500)
  /\ (forall e, outcome_for d = OpenRaises e ->
        save d fs = (inl (save_handler e), fs))
  /\ (forall e written, outcome_for d = BodyRaises e written ->
        save d fs = (inl (save_handler e), fs')
        /\ fs' !! file_for d = Some (Py.slice_to written (text_for d))
        /\ (written = 0 -> fs' !! file_for d = Some ""))
  /\ (outcome_for d = Written -> fs' !! file_for d = Some (text_for d)).
Proof.
  intros fs'. split; [|split; [|split; [|split; [|split]]]].
  - intros file Hne. now apply save_other_file.
  - intros file Hsome. subst fs'. unfold save_architecture_endpoint.
    fold (saved_path (Diag.diagram_id d)).
    destruct (write_file _ _); cbn [snd]; try exact Hsome;
      (destruct (decide (file_for d = file)) as [<-|Hne];
       [rewrite lookup_insert_eq; eauto|now rewrite lookup_insert_ne]).
  - intros h. unfold save_architecture_endpoint.
    destruct (write_file _ _) as [e|e written|]; cbn [fst];
      intros [= <-]; now destruct e.
  - intros e. apply save_open_raises.
  - intros e written Hw. subst fs'. unfold save_architecture_endpoint.
    fold (saved_path (Diag.diagram_id d)). rewrite Hw. cbn [snd].
    split; [reflexivity|]. split; [apply lookup_insert_eq|].
    intros ->. rewrite lookup_insert_eq. unfold Py.slice_to.
    now destruct (text_for d).
  - intros Hw. subst fs'. unfold save_architecture_endpoint.
    fold (saved_path (Diag.diagram_id d)). rewrite Hw. cbn [snd].
    apply lookup_insert_eq.
Qed.

(** X21: get answers with status 404 exactly when the directory holds no
    document under the key of the id. *)
Theorem get_404_iff_missing (id : string) (fs : gmap string string) :
  (exists e, fst (get id fs) = inl e /\ status_code e = 404)
  <-> fs !! file_of (saved_path id) = None.
Proof.
  split.
  - intros (e & Hget & Hcode). unfold get_architecture_endpoint in Hget.
    fold (saved_path id) in Hget.
    destruct (fs !! file_of (saved_path id)) as [content|]; [|reflexivity].
    exfalso. unfold read_architecture in Hget.
    destruct (negb _); [|destruct (json_loads content) as [j|];
      [destruct (model_validate j)|]]; cbn in Hget;
      first [discriminate Hget | injection Hget as <-; discriminate Hcode].
  - intros Hnone. destruct (get_missing id fs Hnone) as (e & -> & Hc).
    exists e. split; [reflexivity|exact Hc].
Qed.

(** X22: a get that succeeds returns what the stored document says: the
    document is not blank, it is JSON, and the diagram is the result of
    validating it. *)
Theorem get_ok_inv (id : string) (d : Diag.t) (fs : gmap string string) :
  fst (get id fs) = inr d ->
  exists (content : string) (j : json),
    fs !! file_of (saved_path id) = Some content
    /\ Py.strip content <> ""
    /\ json_loads content = Some j
    /\ model_validate j = Some d.
Proof.
  unfold get_architecture_endpoint. fold (saved_path id).
  destruct (fs !! file_of (saved_path id)) as [content|]; [|discriminate].
  unfold read_architecture.
  destruct (Py.strip content) as [|c s] eqn:Hstrip; cbn; [discriminate|].
  destruct (json_loads content) as [j|] eqn:Hj; [|discriminate].
  destruct (model_validate j) as [d'|] eqn:Hv; [|discriminate].
  intros [= ->]. exists content, j. rewrite Hstrip.
  repeat split; first [reflexivity | assumption | discriminate].
Qed.

End StoreProperties.

(** ** Properties of the reference codec *)

Section RefCodecProperties.

Import RefCodec.

Lemma read_string_escape (s r : string) :
  read_string (escape s +:+ String quote r) = Some (s, r).
Proof.
  induction s as [|c s IH]; [reflexivity|].
  cbn [escape]. destruct (needs_escape c) eqn:Hc.
  - rewrite !append_cons. cbn [read_string].
    change (Ascii.eqb backslash quote) with false.
    change (Ascii.eqb backslash backslash) with true.
    cbn iota. now rewrite Hc, IH.
  - rewrite append_cons. cbn [read_string].
    unfold needs_escape in Hc. apply orb_false_iff in Hc as [-> ->].
    now rewrite IH.
Qed.

Lemma read_digits_print (d : Decimal.uint) (r : string) :
  ends_digits r ->
  read_digits (DecimalString.NilEmpty.string_of_uint d +:+ r) = (d, r).
Proof.
  intros Hr.
  induction d as [|d IH|d IH|d IH|d IH|d IH|d IH|d IH|d IH|d IH|d IH];
    cbn [DecimalString.NilEmpty.string_of_uint];
    rewrite ?append_cons; cbn [read_digits];
    try match goal with
        | |- context [digit_of ?c] =>
            let v := eval vm_compute in (digit_of c) in
            change (digit_of c) with v; cbn iota; now rewrite IH
        end.
  rewrite append_nil_l. destruct r as [|c r]; [reflexivity|].
  cbn in Hr |- *. now rewrite Hr.
Qed.

Lemma to_uint_nonnil (n : N) : N.to_uint n <> Decimal.Nil.
Proof.
  destruct n as [|p]; [discriminate|].
  apply DecimalPos.Unsigned.to_uint_nonnil.
Qed.

Lemma read_N_print (n : N) (r : string) :
  ends_digits r -> read_N (print_N n +:+ r) = Some (n, r).
Proof.
  intros Hr. unfold read_N, print_N. rewrite read_digits_print by exact Hr.
  pose proof (to_uint_nonnil n) as Hnil.
  pose proof (DecimalN.Unsigned.of_to n) as Hn.
  destruct (N.to_uint n); first [now contradiction Hnil | now rewrite Hn].
Qed.

Lemma print_N_head (n : N) :
  exists c t, print_N n = String c t /\ digit_of c <> None.
Proof.
  unfold print_N. pose proof (to_uint_nonnil n) as Hnil.
  destruct (N.to_uint n); first [now contradiction Hnil | idtac];
    cbn [DecimalString.NilEmpty.string_of_uint];
    do 2 eexists; (split; [reflexivity|discriminate]).
Qed.

Lemma print_Z_head (z : Z) :
  exists c t, print_Z z = String c t /\ starts_number c = true.
Proof.
  destruct z as [|p|p]; cbn [print_Z].
  - destruct (print_N_head (Z.to_N 0)) as (c & t & -> & Hc).
    exists c, t. split; [reflexivity|]. unfold starts_number.
    now destruct (digit_of c).
  - destruct (print_N_head (Z.to_N (Zpos p))) as (c & t & -> & Hc).
    exists c, t. split; [reflexivity|]. unfold starts_number.
    now destruct (digit_of c).
  - do 2 eexists. split; reflexivity.
Qed.

Lemma read_Z_print (z : Z) (r : string) :
  ends_digits r -> read_Z (print_Z z +:+ r) = Some (z, r).
Proof.
  intros Hr.
  assert (forall n : N,
            read_Z (print_N n +:+ r) = Some (Z.of_N n, r)) as Hpos.
  { intros n. pose proof (read_N_print n r Hr) as Hn.
    destruct (print_N_head n) as (c & t & E & Hc). rewrite E in *.
    rewrite append_cons in *. unfold read_Z. rewrite Hn.
    destruct c as [[] [] [] [] [] [] [] []]; first [reflexivity | now contradiction Hc]. }
  destruct z as [|p|p]; cbn [print_Z].
  - apply (Hpos 0%N).
  - apply (Hpos (Npos p)).
  - rewrite append_cons. cbn [read_Z]. now rewrite read_N_print.
Qed.

Lemma parse_number (fuel : nat) (c : ascii) (t : string) :
  starts_number c = true ->
  parse (S fuel) (String c t) = read_number (String c t).
Proof.
  intros Hc.
  destruct c as [[] [] [] [] [] [] [] []]; first [discriminate Hc | reflexivity].
Qed.

(** No value starts with a closing bracket. *)
Lemma print_Z_not_closing (z : Z) (r : string) :
  starts_with "]" (print_Z z +:+ r) = false.
Proof.
  destruct (print_Z_head z) as (c & t & -> & Hc).
  rewrite append_cons. cbn [starts_with].
  destruct c as [[] [] [] [] [] [] [] []]; first [discriminate Hc | reflexivity].
Qed.

Lemma print_not_closing (j : json) (r : string) :
  starts_with "]" (print j +:+ r) = false.
Proof.
  destruct j as [|[]|z|[m e| | |]|s|xs|kvs]; try reflexivity; cbn [print].
  - apply print_Z_not_closing.
  - rewrite append_assoc. apply print_Z_not_closing.
Qed.

(** A number is read back as an integer or as a float, by the exponent
    that follows its digits. *)
Lemma read_number_integer (z : Z) (r : string) :
  ends_number r -> read_number (print_Z z +:+ r) = Some (JNum z, r).
Proof.
  intros [Hd He]. unfold read_number. rewrite read_Z_print by exact Hd.
  destruct r as [|c r]; [reflexivity|]. cbn [starts_with] in He.
  destruct c as [[] [] [] [] [] [] [] []]; first [discriminate He | reflexivity].
Qed.

Lemma read_number_float (m e : Z) (r : string) :
  ends_number r ->
  read_number ((print_Z m +:+ String "e" (print_Z e)) +:+ r)
  = Some (JFloat (Finite m e), r).
Proof.
  intros [Hd _]. unfold read_number.
  rewrite append_assoc, append_cons, read_Z_print by reflexivity.
  now rewrite read_Z_print by exact Hd.
Qed.

Lemma print_elements_last (x : json) :
  print_elements print [x] = print x +:+ "]".
Proof. reflexivity. Qed.

Lemma print_elements_more (x y : json) (xs : list json) :
  print_elements print (x :: y :: xs)
  = print x +:+ String "," (print_elements print (y :: xs)).
Proof. reflexivity. Qed.

Lemma print_members_last (k : string) (v : json) :
  print_members print [(k, v)]
  = String quote (escape k +:+ String quote (String ":" (print v +:+ "}"))).
Proof.
  cbn [print_members fst snd]. unfold print_string.
  now rewrite append_cons, append_assoc, !append_cons, append_nil_l.
Qed.

Lemma print_members_more (k : string) (v : json) (kv : string * json)
    (kvs : list (string * json)) :
  print_members print ((k, v) :: kv :: kvs)
  = String quote (escape k +:+ String quote (String ":" (print v +:+
      String "," (print_members print (kv :: kvs))))).
Proof.
  change (print_members print ((k, v) :: kv :: kvs))
    with (print_string k +:+ String ":" (print v +:+
            String "," (print_members print (kv :: kvs)))).
  unfold print_string.
  now rewrite append_cons, append_assoc, !append_cons, append_nil_l.
Qed.

Lemma parse_elements_print (xs : list json) (x : json) :
  Forall reads_back (x :: xs) ->
  forall (fuel : nat) (r : string),
    String.length (print_elements print (x :: xs)) < fuel ->
    parse_elements fuel (print_elements print (x :: xs) +:+ r)
    = Some (map inf_nan_to_null (x :: xs), r).
Proof.
  revert x. induction xs as [|y xs IH]; intros x Hall fuel r Hfuel;
    apply Forall_cons in Hall as [Hx Hall];
    (destruct fuel as [|fuel]; [lia|]).
  - rewrite print_elements_last in Hfuel |- *.
    rewrite length_append in Hfuel. cbn [String.length] in Hfuel.
    rewrite append_assoc, append_cons, append_nil_l. cbn [parse_elements].
    rewrite Hx by (cbn; first [lia | split; reflexivity]). reflexivity.
  - rewrite print_elements_more in Hfuel |- *.
    rewrite length_append in Hfuel. cbn [String.length] in Hfuel.
    rewrite append_assoc, append_cons. cbn [parse_elements].
    rewrite Hx by (cbn; first [lia | split; reflexivity]).
    change (Ascii.eqb "," ",") with true. cbn iota.
    now rewrite (IH y Hall fuel r) by lia.
Qed.

Lemma parse_members_print (kvs : list (string * json)) (kv : string * json) :
  Forall (fun kv => reads_back (snd kv)) (kv :: kvs) ->
  forall (fuel : nat) (r : string),
    String.length (print_members print (kv :: kvs)) < fuel ->
    parse_members fuel (print_members print (kv :: kvs) +:+ r)
    = Some (dict_as_written (kv :: kvs), r).
Proof.
  revert kv. induction kvs as [|kv' kvs IH]; intros [k v] Hall fuel r Hfuel;
    apply Forall_cons in Hall as [Hv Hall]; cbn [snd] in Hv;
    (destruct fuel as [|fuel]; [lia|]).
  - rewrite print_members_last in Hfuel |- *.
    cbn [String.length] in Hfuel. rewrite length_append in Hfuel.
    cbn [String.length] in Hfuel. rewrite length_append in Hfuel.
    cbn [String.length] in Hfuel.
    rewrite append_cons, append_assoc, !append_cons, append_assoc,
      append_cons, append_nil_l.
    cbn [parse_members starts_with behead].
    change (Ascii.eqb quote quote) with true. cbn iota.
    rewrite read_string_escape.
    change (Ascii.eqb ":" ":") with true. cbn iota.
    rewrite Hv by (cbn; first [lia | split; reflexivity]). reflexivity.
  - rewrite print_members_more in Hfuel |- *.
    cbn [String.length] in Hfuel. rewrite length_append in Hfuel.
    cbn [String.length] in Hfuel. rewrite length_append in Hfuel.
    cbn [String.length] in Hfuel.
    rewrite append_cons, append_assoc, !append_cons, append_assoc,
      append_cons.
    cbn [parse_members starts_with behead].
    change (Ascii.eqb quote quote) with true. cbn iota.
    rewrite read_string_escape.
    change (Ascii.eqb ":" ":") with true. cbn iota.
    rewrite Hv by (cbn; first [lia | split; reflexivity]).
    change (Ascii.eqb "," ",") with true. cbn iota.
    now rewrite (IH kv' Hall fuel r) by lia.
Qed.

Lemma parse_print (j : json) : reads_back j.
Proof.
  induction j as [|b|z|x|s|xs IH|kvs IH] using json_nested_ind;
    intros fuel r Hfuel Hr; (destruct fuel as [|fuel]; [lia|]).
  - reflexivity.
  - destruct b; reflexivity.
  - cbn [print inf_nan_to_null]. destruct (print_Z_head z) as (c & t & E & Hc).
    pose proof (read_number_integer z r Hr) as Hz. rewrite E in Hz |- *.
    rewrite append_cons in Hz |- *.
    now rewrite (parse_number fuel c _ Hc), Hz.
  - destruct x as [m e| | |]; try reflexivity.
    cbn [print inf_nan_to_null]. destruct (print_Z_head m) as (c & t & E & Hc).
    pose proof (read_number_float m e r Hr) as Hz. rewrite E in Hz |- *.
    rewrite !append_cons in Hz |- *.
    now rewrite (parse_number fuel c _ Hc), Hz.
  - cbn [print]. unfold print_string. rewrite append_cons.
    cbn [parse]. change (Ascii.eqb quote "n") with false.
    change (Ascii.eqb quote "t") with false.
    change (Ascii.eqb quote "f") with false.
    change (Ascii.eqb quote quote) with true. cbn iota.
    now rewrite append_assoc, append_cons, append_nil_l, read_string_escape.
  - cbn [print] in Hfuel |- *. cbn [String.length] in Hfuel.
    rewrite append_cons.
    destruct xs as [|x xs]; [reflexivity|].
    cbn [parse]. change (Ascii.eqb "[" "n") with false.
    change (Ascii.eqb "[" "t") with false.
    change (Ascii.eqb "[" "f") with false.
    change (Ascii.eqb "[" quote) with false.
    change (Ascii.eqb "[" "[") with true. cbn iota.
    assert (starts_with "]" (print_elements print (x :: xs) +:+ r) = false)
      as ->.
    { cbn [print_elements]. rewrite append_assoc. apply print_not_closing. }
    now rewrite (parse_elements_print xs x IH fuel r) by lia.
  - cbn [print] in Hfuel |- *. cbn [String.length] in Hfuel.
    rewrite append_cons.
    destruct kvs as [|kv kvs]; [reflexivity|].
    cbn [parse]. change (Ascii.eqb "{" "n") with false.
    change (Ascii.eqb "{" "t") with false.
    change (Ascii.eqb "{" "f") with false.
    change (Ascii.eqb "{" quote) with false.
    change (Ascii.eqb "{" "[") with false.
    change (Ascii.eqb "{" "{") with true. cbn iota.
    assert (starts_with "}" (print_members print (kv :: kvs) +:+ r) = false)
      as -> by reflexivity.
    now rewrite (parse_members_print kvs kv IH fuel r) by lia.
Qed.

Lemma append_nil_r (s : string) : s +:+ "" = s.
Proof.
  induction s as [|c s IH]; [reflexivity|].
  rewrite append_cons. now rewrite IH.
Qed.

(** The reference codec meets the two requirements of the store. *)
Lemma ref_loads_dumps (j : json) :
  json_loads (json_dumps j) = Some (inf_nan_to_null j).
Proof.
  unfold json_loads, json_dumps.
  pose proof (parse_print j (S (String.length (print j))) "") as H.
  rewrite append_nil_r in H.
  now rewrite H by (cbn; first [lia | split; [exact I|reflexivity]]).
Qed.

Lemma ref_loads_blank (s : string) : Py.strip s = "" -> json_loads s = None.
Proof.
  intros [->|(c & s' & -> & Hc)]%strip_empty; [reflexivity|].
  unfold json_loads.
  assert (parse (S (String.length (String c s'))) (String c s') = None) as ->;
    [|reflexivity].
  destruct c as [[] [] [] [] [] [] [] []]; first [discriminate Hc | reflexivity].
Qed.

End RefCodecProperties.

(** ** Properties of the upload endpoint *)

Lemma prefix_nil (s : string) : String.prefix "" s = true.
Proof. now destruct s. Qed.

Lemma prefix_char (c x : ascii) (s : string) :
  String.prefix (String c "") (String x s) = Ascii.eqb x c.
Proof.
  cbn [String.prefix]. rewrite prefix_nil.
  destruct (Ascii.ascii_dec c x) as [->|Hne].
  - now rewrite Ascii.eqb_refl.
  - symmetry. apply Ascii.eqb_neq. congruence.
Qed.

Lemma str_in_char (c x : ascii) (s : string) :
  Py.str_in (String c "") (String x s)
  = Ascii.eqb x c || Py.str_in (String c "") s.
Proof.
  cbn [Py.str_in]. rewrite prefix_char. now destruct (Ascii.eqb x c).
Qed.

Lemma rfind_none (c : ascii) (s : string) :
  PyOs.rfind c s = None <-> Py.str_in (String c "") s = false.
Proof.
  induction s as [|x s IH]; [easy|].
  rewrite str_in_char. cbn [PyOs.rfind].
  destruct (PyOs.rfind c s) as [i|].
  - split; [discriminate|]. intros [_ H]%orb_false_iff.
    apply IH in H. discriminate H.
  - destruct IH as [IH _]. rewrite (IH eq_refl), orb_false_r.
    destruct (Ascii.eqb x c); easy.
Qed.

Lemma slice_to_from (i : nat) (s : string) :
  Py.slice_to i s +:+ PyOs.slice_from i s = s.
Proof.
  unfold Py.slice_to. revert s. induction i as [|i IH]; intros [|c s];
    try reflexivity.
  cbn [String.substring PyOs.slice_from]. rewrite append_cons. now rewrite IH.
Qed.

Lemma rfind_some (c : ascii) (s : string) (i : nat) :
  PyOs.rfind c s = Some i ->
  exists rest, PyOs.slice_from i s = String c rest.
Proof.
  revert i. induction s as [|x s IH]; intros i; [discriminate|].
  cbn [PyOs.rfind]. destruct (PyOs.rfind c s) as [j|].
  - intros [= <-]. cbn [PyOs.slice_from]. now apply IH.
  - destruct (Ascii.eqb_spec x c) as [->|_]; [|discriminate].
    intros [= <-]. now exists s.
Qed.

(** What [os.path.splitext] returns: the two parts make up the path, and
    the extension is empty or starts with its dot. *)
Lemma splitext_parts (p : string) :
  fst (PyOs.splitext p) +:+ snd (PyOs.splitext p) = p
  /\ (snd (PyOs.splitext p) = ""
      \/ exists rest, snd (PyOs.splitext p) = String "." rest).
Proof.
  unfold PyOs.splitext.
  destruct (PyOs.rfind "." p) as [dot|] eqn:Hdot;
    [|split; [apply append_nil_r|now left]].
  destruct (_ && _); cbn [fst snd].
  - split; [apply slice_to_from|]. right. now apply rfind_some.
  - split; [apply append_nil_r|now left].
Qed.

Lemma splitext_without_dot (p : string) :
  Py.str_in "." p = false -> PyOs.splitext p = (p, "").
Proof.
  intros H%rfind_none. unfold PyOs.splitext. now rewrite H.
Qed.

Lemma split_join (c : ascii) (s : string) :
  exists w ws, PyOs.split c s = w :: ws
               /\ PyOs.join (String c "") (w :: ws) = s
               /\ (Py.str_in (String c "") s = true -> ws <> []).
Proof.
  induction s as [|x s (w & ws & Hsplit & Hjoin & Hdot)].
  - exists "", []. repeat split; easy.
  - cbn [PyOs.split]. rewrite Hsplit, str_in_char.
    destruct (Ascii.eqb_spec x c) as [->|Hne].
    + exists "", (w :: ws). split; [reflexivity|]. split; [|easy].
      change (PyOs.join (String c "") ("" :: w :: ws))
        with ("" +:+ String c "" +:+ PyOs.join (String c "") (w :: ws)).
      now rewrite Hjoin.
    + exists (String x w), ws. split; [reflexivity|]. split; [|exact Hdot].
      destruct ws as [|w' ws]; cbn [PyOs.join] in Hjoin |- *;
        [now rewrite Hjoin|].
      rewrite append_cons. now rewrite Hjoin.
Qed.

(** The [elif] branch: the part of a name from its first dot on. *)
Lemma from_first_dot (s : string) :
  Py.str_in "." s = true ->
  exists w ws, PyOs.split "." s = w :: ws
               /\ Nat.ltb 1 (List.length (w :: ws)) = true
               /\ s = w +:+ ("." +:+ PyOs.join "." ws).
Proof.
  intros Hdot. destruct (split_join "." s) as (w & ws & Hs & Hj & Hne).
  exists w, ws. split; [exact Hs|].
  destruct ws as [|w' ws]; [now contradiction (Hne Hdot)|].
  split; [reflexivity|]. symmetry. exact Hj.
Qed.

(** X23: the extension given to a stored upload is the end of the
    original file name; it is empty exactly when the name has no dot, and
    otherwise it starts with a dot. *)
Theorem upload_extension_shape (name : string) :
  (exists stem, name = stem +:+ upload_extension name)
  /\ (upload_extension name = "" <-> Py.str_in "." name = false)
  /\ (upload_extension name <> "" ->
      String.prefix "." (upload_extension name) = true).
Proof.
  unfold upload_extension.
  destruct (splitext_parts name) as [Hparts [Hext|(rest & Hext)]];
    rewrite Hext in *; cbn [Py.truthy_str negb andb].
  - destruct (Py.str_in "." name) eqn:Hdot.
    + destruct (from_first_dot name Hdot) as (w & ws & Hs & Hlen & Hname).
      rewrite Hs, Hlen. cbn [tail].
      assert (Py.truthy_str name = true) as ->
        by (destruct name; [discriminate Hdot|reflexivity]).
      cbn [andb]. split; [now exists w|]. split; [easy|].
      intros _. now rewrite append_cons, append_nil_l, prefix_char.
    + rewrite andb_false_r. split; [exists name; now rewrite append_nil_r|].
      split; easy.
  - rewrite prefix_char, Ascii.eqb_refl. cbn [negb andb].
    split; [exists (fst (PyOs.splitext name)); now symmetry|].
    split; [|now rewrite prefix_char, Ascii.eqb_refl].
    split; [discriminate|]. intros Hdot.
    rewrite (splitext_without_dot name Hdot) in Hext. discriminate Hext.
Qed.

(** A stored extension that is not empty starts with a dot. *)
Lemma extension_dot (name : string) :
  upload_extension name <> "" ->
  String.prefix "." (upload_extension name) = true.
Proof.
  unfold upload_extension.
  destruct (splitext_parts name) as [_ [Hext|(rest & Hext)]];
    rewrite Hext; cbn [Py.truthy_str negb andb].
  - destruct (Py.truthy_str name && Py.str_in "." name) eqn:Hdot;
      [|intros H; now contradiction H].
    apply andb_true_iff in Hdot as [_ Hdot].
    destruct (from_first_dot name Hdot) as (w & ws & Hs & Hlen & _).
    rewrite Hs, Hlen. intros _.
    now rewrite append_cons, append_nil_l, prefix_char.
  - rewrite prefix_char, Ascii.eqb_refl. cbn [negb andb]. intros _.
    now rewrite prefix_char, Ascii.eqb_refl.
Qed.

Lemma rfind_append_none (c : ascii) (a b : string) :
  PyOs.rfind c a = None -> PyOs.rfind c b = None ->
  PyOs.rfind c (a +:+ b) = None.
Proof.
  intros Ha Hb. induction a as [|x a IH]; [exact Hb|].
  rewrite append_cons. cbn [PyOs.rfind] in Ha |- *.
  destruct (PyOs.rfind c a); [discriminate Ha|].
  rewrite (IH eq_refl). exact Ha.
Qed.

Lemma rfind_append_last (c : ascii) (a b : string) :
  PyOs.rfind c b = None ->
  PyOs.rfind c (a +:+ String c b) = Some (String.length a).
Proof.
  intros Hb. induction a as [|x a IH].
  - rewrite append_nil_l. cbn [PyOs.rfind]. now rewrite Hb, Ascii.eqb_refl.
  - rewrite append_cons. cbn [PyOs.rfind String.length]. now rewrite IH.
Qed.

Lemma slice_from_append (a b : string) :
  PyOs.slice_from (String.length a) (a +:+ b) = b.
Proof.
  induction a as [|x a IH]; [now destruct b|].
  rewrite append_cons. exact IH.
Qed.

Lemma slice_to_append (a b : string) :
  Py.slice_to (String.length a) (a +:+ b) = a.
Proof.
  unfold Py.slice_to. induction a as [|x a IH]; [now destruct b|].
  rewrite append_cons. cbn [String.length String.substring]. now rewrite IH.
Qed.

Lemma finds_name_append (pre a rest : string) :
  PyOs.finds_name (pre +:+ a +:+ rest) (String.length pre) (String.length a)
  = negb (all_dots a).
Proof.
  revert pre. induction a as [|x a IH]; intros pre; [reflexivity|].
  cbn [String.length PyOs.finds_name all_dots].
  rewrite slice_from_append, append_cons.
  assert (Py.slice_to 1 (String x (a +:+ rest)) = String x "") as ->
    by (unfold Py.slice_to; cbn; now destruct (a +:+ rest)).
  destruct (Ascii.eqb_spec x ".") as [->|Hne].
  - cbn [negb andb].
    specialize (IH (pre +:+ ".")).
    rewrite length_append in IH. cbn [String.length] in IH.
    rewrite Nat.add_1_r, append_assoc, append_cons, append_nil_l in IH.
    exact IH.
  - assert (String.eqb (String x "") "." = false) as ->; [|reflexivity].
    apply String.eqb_neq. congruence.
Qed.

(** X24: a file name made of a stem without slash that is not dots only,
    a dot, and an extension without dot or slash keeps exactly that
    extension, as archive.tar.gz keeps .gz. *)
Theorem upload_extension_of_plain_name (stem ext : string) :
  Py.str_in "/" stem = false ->
  all_dots stem = false ->
  Py.str_in "." ext = false ->
  Py.str_in "/" ext = false ->
  PyOs.splitext (stem +:+ "." +:+ ext) = (stem, "." +:+ ext)
  /\ upload_extension (stem +:+ "." +:+ ext) = "." +:+ ext.
Proof.
  intros Hs%rfind_none Hd He%rfind_none Hx%rfind_none.
  assert (PyOs.splitext (stem +:+ "." +:+ ext) = (stem, "." +:+ ext)) as Hsplit.
  { unfold PyOs.splitext.
    change (stem +:+ "." +:+ ext) with (stem +:+ String "." ext).
    rewrite (rfind_append_last "." stem ext He).
    rewrite (rfind_append_none "/" stem (String "." ext) Hs)
      by (cbn [PyOs.rfind]; now rewrite Hx).
    rewrite Nat.sub_0_r. cbn [Nat.leb andb].
    pose proof (finds_name_append "" stem (String "." ext)) as Hf.
    rewrite append_nil_l in Hf. cbn [String.length] in Hf.
    rewrite Hf, Hd. cbn [negb].
    now rewrite slice_to_append, slice_from_append. }
  split; [exact Hsplit|].
  unfold upload_extension. rewrite Hsplit. cbn [snd].
  change ("." +:+ ext) with (String "." ext).
  cbn [Py.truthy_str]. now rewrite prefix_char, Ascii.eqb_refl.
Qed.

Section UploadProperties.

Variable uuid4 : nat -> string.
Variable can_open_w : string -> bool.

Local Abbreviation upload := (upload_architecture_endpoint uuid4 can_open_w).

Lemma upload_ok_inv (u : UploadFile) (fs fs' : gmap string string)
    (n n' : nat) (r : ApiResponse) :
  upload u fs n = (inr r, fs', n') ->
  exists name : string,
    filename u = Some name
    /\ n' = S n
    /\ data r = Some (JObj
         [("file_id", JStr (uuid4 n +:+ upload_extension name));
          ("original_filename", JStr name);
          ("stored_path",
           JStr (Py.os_path_join UPLOADS_DIR
                   (uuid4 n +:+ upload_extension name)))])
    /\ fs' = <[Py.os_path_join UPLOADS_DIR (uuid4 n +:+ upload_extension name)
               := file u]> fs.
Proof.
  unfold upload_architecture_endpoint.
  destruct (filename u) as [name|]; [|discriminate].
  destruct (can_open_w _); [|discriminate].
  intros [= <- <- <-]. exists name. repeat split; reflexivity.
Qed.

(** X25: an accepted upload stores the bytes of the file unchanged under
    the path that its receipt reports, draws one uuid, and leaves every
    other file as it was. *)
Theorem upload_stores_bytes (u : UploadFile) (fs fs' : gmap string string)
    (n n' : nat) (r : ApiResponse) :
  upload u fs n = (inr r, fs', n') ->
  exists (file_id name path : string),
    data r = Some (JObj [("file_id", JStr file_id);
                         ("original_filename", JStr name);
                         ("stored_path", JStr path)])
    /\ filename u = Some name
    /\ path = Py.os_path_join UPLOADS_DIR file_id
    /\ fs' !! path = Some (file u)
    /\ (forall other, other <> path -> fs' !! other = fs !! other)
    /\ n' = S n.
Proof.
  intros (name & Hname & -> & Hdata & ->)%upload_ok_inv.
  do 3 eexists. split; [exact Hdata|]. split; [exact Hname|].
  split; [reflexivity|]. split; [apply lookup_insert_eq|].
  split; [|reflexivity].
  intros other Hne. now apply lookup_insert_ne.
Qed.

Lemma os_path_join_relative (dir x : string) :
  String.prefix "/" x = false ->
  Py.os_path_join dir x = dir +:+ "/" +:+ x.
Proof. intros H. unfold Py.os_path_join. now rewrite H. Qed.

Lemma extension_not_slash (name : string) :
  String.prefix "/" (upload_extension name) = false.
Proof.
  pose proof (extension_dot name) as Hdot.
  destruct (upload_extension name) as [|c e]; [reflexivity|].
  specialize (Hdot ltac:(discriminate)).
  rewrite prefix_char in Hdot. apply Ascii.eqb_eq in Hdot as ->.
  reflexivity.
Qed.

Lemma stored_name_relative (n : nat) (name : string) :
  plain_uuids uuid4 ->
  String.prefix "/" (uuid4 n +:+ upload_extension name) = false.
Proof.
  intros Hplain. destruct (Hplain n) as [_ Hslash].
  destruct (uuid4 n) as [|c s].
  - rewrite append_nil_l. apply extension_not_slash.
  - rewrite append_cons. rewrite prefix_char in Hslash |- *. exact Hslash.
Qed.

Lemma stored_name_inj (a b e1 e2 : string) :
  Py.str_in "." a = false -> Py.str_in "." b = false ->
  (e1 <> "" -> String.prefix "." e1 = true) ->
  (e2 <> "" -> String.prefix "." e2 = true) ->
  a +:+ e1 = b +:+ e2 -> a = b.
Proof.
  revert b. induction a as [|x a IH]; intros [|y b] Ha Hb H1 H2 E.
  - reflexivity.
  - exfalso. rewrite append_nil_l, append_cons in E. subst e1.
    specialize (H1 ltac:(discriminate)).
    rewrite prefix_char in H1. rewrite str_in_char, H1 in Hb.
    discriminate Hb.
  - exfalso. rewrite append_nil_l, append_cons in E. subst e2.
    specialize (H2 ltac:(discriminate)).
    rewrite prefix_char in H2. rewrite str_in_char, H2 in Ha.
    discriminate Ha.
  - rewrite !append_cons in E. injection E as -> E.
    rewrite str_in_char in Ha, Hb.
    apply orb_false_iff in Ha as [_ Ha]. apply orb_false_iff in Hb as [_ Hb].
    f_equal. now apply (IH b).
Qed.

Lemma stored_path_inj (n m : nat) (name1 name2 : string) :
  never_repeats uuid4 -> plain_uuids uuid4 ->
  Py.os_path_join UPLOADS_DIR (uuid4 n +:+ upload_extension name1)
  = Py.os_path_join UPLOADS_DIR (uuid4 m +:+ upload_extension name2) ->
  n = m.
Proof.
  intros Hfresh Hplain E.
  rewrite !os_path_join_relative in E by now apply stored_name_relative.
  apply (inj (String.append _)), (inj (String.append _)) in E.
  apply Hfresh.
  apply (stored_name_inj _ _ _ _ (proj1 (Hplain n)) (proj1 (Hplain m))) in E;
    [exact E| |];
    intros Hne; now apply extension_dot.
Qed.

(** X26: when the uuid source never repeats and yields neither dots nor
    a leading slash, two accepted uploads made at different draws are
    stored under different paths, whatever their file names, so that the
    later one leaves the bytes of the earlier one in place. *)
Theorem uploads_never_collide (u1 u2 : UploadFile)
    (fs fs1 fs2 : gmap string string) (n n1 m m1 : nat)
    (r1 r2 : ApiResponse) :
  never_repeats uuid4 -> plain_uuids uuid4 ->
  n <> m ->
  upload u1 fs n = (inr r1, fs1, n1) ->
  upload u2 fs1 m = (inr r2, fs2, m1) ->
  exists p1 p2 : string,
    receipt_stored_path r1 = Some p1
    /\ receipt_stored_path r2 = Some p2
    /\ p1 <> p2
    /\ fs2 !! p1 = Some (file u1)
    /\ fs2 !! p2 = Some (file u2).
Proof.
  intros Hfresh Hplain Hnm
    (name1 & _ & _ & Hr1 & ->)%upload_ok_inv
    (name2 & _ & _ & Hr2 & ->)%upload_ok_inv.
  unfold receipt_stored_path. rewrite Hr1, Hr2.
  exists (Py.os_path_join UPLOADS_DIR (uuid4 n +:+ upload_extension name1)),
    (Py.os_path_join UPLOADS_DIR (uuid4 m +:+ upload_extension name2)).
  assert (Py.os_path_join UPLOADS_DIR (uuid4 n +:+ upload_extension name1)
          <> Py.os_path_join UPLOADS_DIR (uuid4 m +:+ upload_extension name2))
    as Hne.
  { intros E. apply Hnm. exact (stored_path_inj _ _ _ _ Hfresh Hplain E). }
  split; [reflexivity|]. split; [reflexivity|].
  split; [exact Hne|]. split; [|apply lookup_insert_eq].
  rewrite lookup_insert_ne by congruence. apply lookup_insert_eq.
Qed.

End UploadProperties.

(** ** The properties at concrete inputs *)

Lemma counter_uuid4_never_repeats : never_repeats counter_uuid4.
Proof. intros i j E. exact (inj pretty i j E). Qed.

Lemma synthesize_well_formed_witness :
  never_repeats counter_uuid4
  /\ (let d := synthesize counter_uuid4 "android ios web api database" 0 in
      Diag.components d <> [] /\ well_formed d /\ no_self_loop d).
Proof.
  split; [exact counter_uuid4_never_repeats|].
  apply (synthesize_well_formed counter_uuid4 counter_uuid4_never_repeats).
Defined.

Lemma backend_tier_fires_once_witness :
  let d := synthesize counter_uuid4 "an api behind another API, api again" 0 in
  exists (g u s : Comp.t) (c1 c2 : Conn.t),
    List.filter (has_type "APIGateway") (Diag.components d) = [g]
    /\ Comp.name g = "API Gateway"
    /\ List.filter (has_type "Microservice") (Diag.components d) = [u; s]
    /\ Comp.name u = "User Service" /\ Comp.name s = "Product Service"
    /\ List.filter (has_protocol "HTTPS/REST") (Diag.connections d) = [c1; c2]
    /\ endpoints c1 = (Comp.id g, Comp.id u)
    /\ endpoints c2 = (Comp.id g, Comp.id s)
    /\ List.filter (leaves (Comp.id g)) (Diag.connections d) = [c1; c2].
Proof.
  apply (backend_tier_fires_once counter_uuid4 counter_uuid4_never_repeats).
  left. reflexivity.
Defined.

Lemma database_only_skips_fallback_witness :
  let d := synthesize counter_uuid4 "database" 0 in
  exists db : Comp.t,
    Diag.components d = [db]
    /\ Comp.name db = "Primary Database"
    /\ Diag.connections d = [].
Proof.
  apply (database_only_skips_fallback counter_uuid4 "database" 0);
    first [reflexivity | left; reflexivity].
Defined.

Lemma no_trigger_yields_default_witness :
  let d := synthesize counter_uuid4 "" 0 in
  exists c : Comp.t,
    Diag.components d = [c]
    /\ Comp.name c = "Default Application Core"
    /\ Diag.connections d = [].
Proof.
  apply (no_trigger_yields_default counter_uuid4 "" 0); reflexivity.
Defined.

Lemma three_independent_clients_witness :
  let p := "Android, iOS and Web clients over one API" in
  let d := synthesize counter_uuid4 p 0 in
  exists a i w : Comp.t,
    List.filter is_client (Diag.components d) = [a; i; w]
    /\ map Comp.name [a; i; w] = ["Android Client"; "iOS Client"; "Web Client"]
    /\ (Py.str_in "api" (Py.lower p) = true ->
        exists g : Comp.t,
          List.filter (has_type "APIGateway") (Diag.components d) = [g]
          /\ map endpoints
               (List.filter (has_protocol "HTTPS") (Diag.connections d))
             = [(Comp.id a, Comp.id g); (Comp.id i, Comp.id g);
                (Comp.id w, Comp.id g)]).
Proof.
  apply (three_independent_clients counter_uuid4
           "Android, iOS and Web clients over one API" 0); reflexivity.
Defined.

Lemma dangling_diagram_dangling : dangling dangling_diagram.
Proof.
  apply Exists_cons_hd. right. cbn.
  apply not_elem_of_cons. split; [discriminate|apply not_elem_of_nil].
Qed.

Lemma save_then_get_witness :
  let fs' : gmap string string :=
    <[posix_file (saved_path "rich_arch")
        := RefCodec.json_dumps (model_dump rich_diagram)]> ∅ in
  exists id : string,
    Some "rich_arch" = Some id
    /\ id = Diag.diagram_id rich_diagram
    /\ get_architecture_endpoint RefCodec.json_loads posix_file id fs'
       = (inr (diagram_as_written rich_diagram), fs')
    /\ (get_architecture_endpoint RefCodec.json_loads posix_file id fs'
        = (inr rich_diagram, fs')
        <-> finite_diagram rich_diagram = true).
Proof.
  apply (save_then_get RefCodec.json_dumps RefCodec.json_loads posix_file
           always_written ref_loads_dumps ref_loads_blank rich_diagram ∅ _
           {| success := true;
              message := "Architecture 'rich_arch' saved successfully.";
              data := Some (JObj [("diagram_id", JStr "rich_arch");
                                  ("saved_path",
                                   JStr "saved_architectures/rich_arch.json")]) |}).
  reflexivity.
Defined.

(** A diagram with an infinite float in its metadata is saved, and the
    get with the id of the receipt returns another diagram: its metadata
    hold [None] in place of the float. *)
Lemma save_then_get_loses_infinity :
  exists (r : ApiResponse) (fs' : gmap string string) (d' : Diag.t),
    save_architecture_endpoint RefCodec.json_dumps posix_file always_written
      infinity_diagram ∅ = (inr r, fs')
    /\ receipt_diagram_id r = Some "inf_arch"
    /\ get_architecture_endpoint RefCodec.json_loads posix_file "inf_arch" fs'
       = (inr d', fs')
    /\ Diag.metadata d' = Some [("budget", JNull)]
    /\ d' <> infinity_diagram.
Proof.
  do 3 eexists. split; [reflexivity|]. split; [reflexivity|].
  split; [vm_compute; reflexivity|]. split; [reflexivity|]. discriminate.
Qed.

Lemma get_never_saved_witness :
  let fs' :=
    save_all RefCodec.json_dumps posix_file always_written
      [test_get_diagram; alias_diagram] ∅ in
  exists e : HTTPException,
    get_architecture_endpoint RefCodec.json_loads posix_file
      "arch_id_does_not_exist_12345" fs' = (inl e, fs')
    /\ status_code e = 404
    /\ get_error_kind e = NotFound
    /\ get_error_kind e <> CorruptData.
Proof.
  apply (get_never_saved RefCodec.json_dumps RefCodec.json_loads posix_file
           always_written "arch_id_does_not_exist_12345"
           [test_get_diagram; alias_diagram] ∅).
  - apply lookup_empty.
  - repeat constructor; intros E; vm_compute in E; discriminate E.
Defined.

(** The id x was never passed to save, and a get with it returns the
    diagram that was saved under the id ./x, whose path names the same
    file. *)
Lemma get_finds_alias :
  let fs' :=
    save_all RefCodec.json_dumps posix_file always_written [alias_diagram] ∅ in
  ("x" ∉ map Diag.diagram_id [alias_diagram])
  /\ (∅ : gmap string string) !! posix_file (saved_path "x") = None
  /\ get_architecture_endpoint RefCodec.json_loads posix_file "x" fs'
     = (inr alias_diagram, fs').
Proof.
  split; [|split].
  - apply not_elem_of_cons. split; [discriminate|apply not_elem_of_nil].
  - apply lookup_empty.
  - vm_compute. reflexivity.
Qed.

(** On a full disk the save of a diagram that was saved before answers
    with status 500 and leaves its file empty, and the get that returned
    the diagram before now answers with status 500. *)
Lemma save_on_full_disk :
  let fs :=
    save_all RefCodec.json_dumps posix_file always_written
      [test_get_diagram] ∅ in
  let answer :=
    save_architecture_endpoint RefCodec.json_dumps posix_file disk_full
      test_get_diagram_v2 fs in
  fst (get_architecture_endpoint RefCodec.json_loads posix_file
         "get_test_arch" fs) = inr test_get_diagram
  /\ (exists e : HTTPException, fst answer = inl e /\ status_code e = 500)
  /\ snd answer !! posix_file (saved_path "get_test_arch") = Some ""
  /\ (exists e : HTTPException,
        fst (get_architecture_endpoint RefCodec.json_loads posix_file
               "get_test_arch" (snd answer)) = inl e
        /\ status_code e = 500).
Proof.
  split; [vm_compute; reflexivity|].
  split; [eexists; split; reflexivity|].
  split; [vm_compute; reflexivity|].
  eexists. split; [vm_compute; reflexivity|reflexivity].
Qed.

Lemma get_unreadable_witness :
  let fs : gmap string string :=
    {[posix_file (saved_path "blank_arch") := "  "]} in
  exists e : HTTPException,
    get_architecture_endpoint RefCodec.json_loads posix_file "blank_arch" fs
    = (inl e, fs)
    /\ status_code e = 500
    /\ get_error_kind e = CorruptData
    /\ get_error_kind e <> NotFound.
Proof.
  apply (get_unreadable RefCodec.json_loads posix_file "blank_arch" "  ").
  - apply lookup_singleton_eq.
  - left. reflexivity.
Defined.

Lemma dangling_endpoints_accepted_witness :
  dangling dangling_diagram
  /\ exists (r : ApiResponse) (fs' : gmap string string) (d' : Diag.t),
       save_architecture_endpoint RefCodec.json_dumps posix_file always_written
         dangling_diagram ∅ = (inr r, fs')
       /\ success r = true
       /\ get_architecture_endpoint RefCodec.json_loads posix_file
            (Diag.diagram_id dangling_diagram) fs' = (inr d', fs')
       /\ d' = diagram_as_written dangling_diagram
       /\ component_ids d' = component_ids dangling_diagram
       /\ map endpoints (Diag.connections d')
          = map endpoints (Diag.connections dangling_diagram)
       /\ dangling d'
       /\ (finite_diagram dangling_diagram = true -> d' = dangling_diagram).
Proof.
  split; [exact dangling_diagram_dangling|].
  apply (dangling_endpoints_accepted RefCodec.json_dumps RefCodec.json_loads
           posix_file always_written ref_loads_dumps ref_loads_blank
           dangling_diagram ∅ dangling_diagram_dangling).
  reflexivity.
Defined.

(** A diagram with a dangling connection and a NaN in a property bag is
    saved, and the get with its id returns another diagram: the bag holds
    [None] in place of the NaN. *)
Lemma dangling_nan_not_returned :
  dangling dangling_nan_diagram
  /\ exists (r : ApiResponse) (fs' : gmap string string) (d' : Diag.t),
       save_architecture_endpoint RefCodec.json_dumps posix_file always_written
         dangling_nan_diagram ∅ = (inr r, fs')
       /\ success r = true
       /\ get_architecture_endpoint RefCodec.json_loads posix_file
            (Diag.diagram_id dangling_nan_diagram) fs' = (inr d', fs')
       /\ map Conn.properties (Diag.connections d')
          = [Some [("latency", JNull)]]
       /\ d' <> dangling_nan_diagram.
Proof.
  split.
  - apply Exists_cons_hd. right. cbn.
    apply not_elem_of_cons. split; [discriminate|apply not_elem_of_nil].
  - do 3 eexists. split; [reflexivity|]. split; [reflexivity|].
    split; [vm_compute; reflexivity|]. split; [reflexivity|]. discriminate.
Qed.

Lemma tally_uuid4_never_repeats : never_repeats tally_uuid4.
Proof.
  intros i. induction i as [|i IH]; intros [|j] E; try discriminate E;
    [reflexivity|].
  injection E as E. f_equal. now apply IH.
Qed.

Lemma tally_uuid4_plain : plain_uuids tally_uuid4.
Proof.
  intros i. split.
  - induction i as [|i IH]; [reflexivity|]. exact IH.
  - now destruct i.
Qed.

Lemma fallback_never_wired_witness :
  Diag.connections (synthesize counter_uuid4 "" 0) = [].
Proof.
  apply (fallback_never_wired counter_uuid4 "" 0). reflexivity.
Defined.

Lemma model_validate_ignores_unknown_witness :
  model_validate (JObj (("author", JStr "AI Agent") :: minimal_document))
  = model_validate (JObj minimal_document).
Proof.
  apply (model_validate_ignores_unknown "author" (JStr "AI Agent") []
           minimal_document).
  unfold diagram_fields.
  repeat (apply not_elem_of_cons; split; [discriminate|]).
  apply not_elem_of_nil.
Defined.

Lemma model_validate_rejects_bad_element_witness :
  model_validate
    (JObj (minimal_document
           ++ [("components", JArr [JObj [("name", JStr "Comp 1");
                                         ("type", JStr "Service")]])]))
  = None.
Proof.
  apply (model_validate_rejects_bad_element _
           [JObj [("name", JStr "Comp 1"); ("type", JStr "Service")]]).
  left. split; [reflexivity|]. apply Exists_cons_hd. reflexivity.
Defined.

Lemma model_validate_defaults_witness :
  model_validate (JObj minimal_document)
  = Some (Diag.mk "test_arch" "Test Save Architecture" None [] [] None).
Proof.
  apply (model_validate_defaults minimal_document); reflexivity.
Defined.

Lemma edges_by_triggers_witness :
  let p := "android and web clients, an api and a database" in
  let d := synthesize counter_uuid4 p 0 in
  map (named_edge d) (Diag.connections d) = tier_edges p.
Proof.
  apply (edges_by_triggers counter_uuid4 counter_uuid4_never_repeats).
Defined.

Lemma services_reach_database_witness :
  let d := synthesize counter_uuid4 "backend with storage" 0 in
  exists (u s db : Comp.t) (k1 k2 : Conn.t),
    List.filter (has_type "Microservice") (Diag.components d) = [u; s]
    /\ List.filter (has_type "Database") (Diag.components d) = [db]
    /\ List.filter (has_protocol "TCP/IP (specific to DB)") (Diag.connections d)
       = [k1; k2]
    /\ endpoints k1 = (Comp.id u, Comp.id db)
    /\ endpoints k2 = (Comp.id s, Comp.id db)
    /\ List.filter (leaves (Comp.id u)) (Diag.connections d) = [k1]
    /\ List.filter (leaves (Comp.id s)) (Diag.connections d) = [k2].
Proof.
  apply (services_reach_database counter_uuid4 counter_uuid4_never_repeats
           "backend with storage" 0); reflexivity.
Defined.

Lemma synthesize_ignores_case_witness :
  Diag.components (synthesize counter_uuid4 "An API with a DATABASE" 0)
  = Diag.components (synthesize counter_uuid4 "an api with a database" 0)
  /\ Diag.connections (synthesize counter_uuid4 "An API with a DATABASE" 0)
     = Diag.connections (synthesize counter_uuid4 "an api with a database" 0).
Proof.
  apply (synthesize_ignores_case counter_uuid4 "An API with a DATABASE"
           "an api with a database" 0).
  reflexivity.
Defined.

Lemma get_after_saves_witness :
  let fs' :=
    save_all RefCodec.json_dumps posix_file always_written
      ([test_get_diagram] ++ test_get_diagram_v2 :: [dangling_diagram]) ∅ in
  get_architecture_endpoint RefCodec.json_loads posix_file
    "./get_test_arch" fs'
  = (inr (diagram_as_written test_get_diagram_v2), fs').
Proof.
  apply (get_after_saves RefCodec.json_dumps RefCodec.json_loads posix_file
           always_written ref_loads_dumps ref_loads_blank "./get_test_arch"
           [test_get_diagram] [dangling_diagram] test_get_diagram_v2 ∅).
  - reflexivity.
  - reflexivity.
  - constructor; [|constructor].
    left. intros E. vm_compute in E. discriminate E.
Defined.

Lemma get_returns_saved_diagram_witness :
  exists d : Diag.t,
    d ∈ [test_get_diagram; dangling_diagram]
    /\ dangling_diagram = diagram_as_written d
    /\ posix_file (saved_path (Diag.diagram_id dangling_diagram))
       = posix_file (saved_path ".//dangling_arch").
Proof.
  apply (get_returns_saved_diagram RefCodec.json_dumps RefCodec.json_loads
           posix_file always_written ref_loads_dumps ref_loads_blank
           ".//dangling_arch" [test_get_diagram; dangling_diagram]
           dangling_diagram).
  - repeat constructor; intros e written E; discriminate E.
  - vm_compute. reflexivity.
Defined.

Lemma get_trusts_document_witness :
  let fs : gmap string string :=
    {[posix_file (saved_path "some_other_id")
        := RefCodec.json_dumps (model_dump test_get_diagram)]} in
  get_architecture_endpoint RefCodec.json_loads posix_file "some_other_id" fs
  = (inr (diagram_as_written test_get_diagram), fs)
  /\ (finite_diagram test_get_diagram = true ->
      get_architecture_endpoint RefCodec.json_loads posix_file
        "some_other_id" fs
      = (inr test_get_diagram, fs)).
Proof.
  apply (get_trusts_document RefCodec.json_dumps RefCodec.json_loads
           posix_file ref_loads_dumps ref_loads_blank "some_other_id"
           test_get_diagram).
  apply lookup_singleton_eq.
Defined.

Lemma get_ok_inv_witness :
  let fs : gmap string string :=
    {[posix_file (saved_path "get_test_arch")
        := RefCodec.json_dumps (model_dump test_get_diagram)]} in
  exists (content : string) (j : json),
    fs !! posix_file (saved_path "get_test_arch") = Some content
    /\ Py.strip content <> ""
    /\ RefCodec.json_loads content = Some j
    /\ model_validate j = Some test_get_diagram.
Proof.
  apply (get_ok_inv RefCodec.json_loads posix_file "get_test_arch"
           test_get_diagram).
  vm_compute. reflexivity.
Defined.

Lemma upload_extension_of_plain_name_witness :
  PyOs.splitext "archive.tar.gz" = ("archive.tar", ".gz")
  /\ upload_extension "archive.tar.gz" = ".gz".
Proof.
  apply (upload_extension_of_plain_name "archive.tar" "gz"); reflexivity.
Defined.

Lemma upload_stores_bytes_witness :
  let fs' : gmap string string :=
    {["uploaded_architectures/uuu.txt" := "This is a dummy diagram file."]} in
  exists (file_id name path : string),
    Some (JObj [("file_id", JStr "uuu.txt");
                ("original_filename", JStr "test_diagram.txt");
                ("stored_path", JStr "uploaded_architectures/uuu.txt")])
    = Some (JObj [("file_id", JStr file_id);
                  ("original_filename", JStr name);
                  ("stored_path", JStr path)])
    /\ filename test_upload = Some name
    /\ path = Py.os_path_join UPLOADS_DIR file_id
    /\ fs' !! path = Some (file test_upload)
    /\ (forall other, other <> path -> fs' !! other = (∅ : gmap string string) !! other)
    /\ 4 = 4.
Proof.
  apply (upload_stores_bytes tally_uuid4 always_writable test_upload ∅
           {["uploaded_architectures/uuu.txt" := "This is a dummy diagram file."]}
           3 4
           {| success := true;
              message := "File 'test_diagram.txt' uploaded successfully as 'uuu.txt'.";
              data := Some (JObj
                        [("file_id", JStr "uuu.txt");
                         ("original_filename", JStr "test_diagram.txt");
                         ("stored_path",
                          JStr "uploaded_architectures/uuu.txt")]) |}).
  reflexivity.
Defined.

Lemma uploads_never_collide_witness :
  let fs2 : gmap string string :=
    <["uploaded_architectures/uu.txt" := "This is a dummy diagram file."]>
      {["uploaded_architectures/u.txt" := "This is a dummy diagram file."]} in
  exists p1 p2 : string,
    Some "uploaded_architectures/u.txt" = Some p1
    /\ Some "uploaded_architectures/uu.txt" = Some p2
    /\ p1 <> p2
    /\ fs2 !! p1 = Some (file test_upload)
    /\ fs2 !! p2 = Some (file test_upload).
Proof.
  apply (uploads_never_collide tally_uuid4 always_writable test_upload
           test_upload ∅
           {["uploaded_architectures/u.txt" := "This is a dummy diagram file."]}
           (<["uploaded_architectures/uu.txt" := "This is a dummy diagram file."]>
              {["uploaded_architectures/u.txt" := "This is a dummy diagram file."]})
           1 2 2 3
           {| success := true;
              message := "File 'test_diagram.txt' uploaded successfully as 'u.txt'.";
              data := Some (JObj
                        [("file_id", JStr "u.txt");
                         ("original_filename", JStr "test_diagram.txt");
                         ("stored_path",
                          JStr "uploaded_architectures/u.txt")]) |}
           {| success := true;
              message := "File 'test_diagram.txt' uploaded successfully as 'uu.txt'.";
              data := Some (JObj
                        [("file_id", JStr "uu.txt");
                         ("original_filename", JStr "test_diagram.txt");
                         ("stored_path",
                          JStr "uploaded_architectures/uu.txt")]) |}
           tally_uuid4_never_repeats tally_uuid4_plain).
  - lia.
  - reflexivity.
  - reflexivity.
Defined.
